(** * zone-transfer.py: a shallow embedding and its verified properties

    The script resolves the name servers of a domain, tries a zone
    transfer (AXFR) against them through up to four mechanisms, and prints
    two tables.  Everything it computes is orchestration around external
    collaborators (the DNS resolver, the AXFR client, three command-line
    tools, one HTTPS endpoint).  The collaborators are modelled by a
    [world]: one oracle per external call, each a function of the calls
    made so far, so that any deterministic environment, stateful or not, is
    an instance.  The Python code itself is embedded in a state-and-
    exception monad whose state is the log of external calls and the
    console. *)

From Stdlib Require Import String Ascii ZArith List DecimalString Lia.
From stdpp Require Import gmap strings list.
Import ListNotations.

Local Open Scope string_scope.
Local Open Scope list_scope.

(** ** Python strings

    A [str] is modelled by [string]: a sequence of code points below 256. *)

Definition LF : ascii := ascii_of_nat 10.
Definition CR : ascii := ascii_of_nat 13.

(** [needle in hay] on strings: substring test. *)
Fixpoint str_in (needle hay : string) : bool :=
  String.prefix needle hay
  || match hay with
     | EmptyString => false
     | String _ rest => str_in needle rest
     end.

(** The line boundaries of [str.splitlines] among the code points below
    256: LF, VT, FF, CR, FS, GS, RS and NEL. *)
Definition is_linebreak (c : ascii) : bool :=
  let n := nat_of_ascii c in
  (n =? 10)%nat || (n =? 11)%nat || (n =? 12)%nat || (n =? 13)%nat
  || (n =? 28)%nat || (n =? 29)%nat || (n =? 30)%nat || (n =? 133)%nat.

(** [splitlines_from s cur]: the lines of [cur ++ s], where [cur] is the
    line read so far.  CR LF is one boundary; a final boundary opens no
    further line. *)
Fixpoint splitlines_from (s cur : string) : list string :=
  match s with
  | EmptyString => if String.eqb cur "" then [] else [cur]
  | String c rest =>
      if is_linebreak c then
        if Ascii.eqb c CR then
          match rest with
          | String c' rest' =>
              if Ascii.eqb c' LF then cur :: splitlines_from rest' ""
              else cur :: splitlines_from rest ""
          | EmptyString => cur :: splitlines_from rest ""
          end
        else cur :: splitlines_from rest ""
      else splitlines_from rest (cur +:+ String c "")
  end.

Definition splitlines (s : string) : list string := splitlines_from s "".

(** ** Python values that reach the tables

    Zone records are 3-tuples of strings, tool output lines are strings, and
    the ASN description is whatever the decoded JSON holds under ["org"]. *)

#[warnings="-register-all"]
Inductive pyval :=
| PyNone
| PyBool (b : bool)
| PyInt (z : Z)
| PyFloat (repr : string)
| PyStr (s : string)
| PyTuple (items : list pyval)
| PyList (items : list pyval)
| PyDict (d : gmap string pyval).

Definition type_name (v : pyval) : string :=
  match v with
  | PyNone => "NoneType"
  | PyBool _ => "bool"
  | PyInt _ => "int"
  | PyFloat _ => "float"
  | PyStr _ => "str"
  | PyTuple _ => "tuple"
  | PyList _ => "list"
  | PyDict _ => "dict"
  end.

(** ** Exceptions

    The classes the script names in its [except] clauses, the ones the
    collaborators raise, and their bases (CPython 3, dnspython 2,
    requests 2). *)

Inductive exn_class :=
| BaseException | KeyboardInterrupt | SystemExit | Exception
| AttributeError | LookupError | IndexError
| ValueError | UnicodeError | UnicodeDecodeError | json_JSONDecodeError
| OSError | FileNotFoundError | PermissionError | TimeoutError
| ConnectionError | ConnectionResetError | ConnectionRefusedError
| requests_RequestException | requests_ConnectionError | requests_Timeout
| requests_InvalidJSONError | requests_JSONDecodeError
| dns_exception_DNSException | dns_exception_FormError
| dns_exception_Timeout | dns_resolver_LifetimeTimeout
| dns_resolver_NXDOMAIN | dns_resolver_NoAnswer | dns_resolver_NoNameservers
| dns_xfr_TransferError | dns_query_BadResponse | dns_query_UnexpectedSource
| dns_zone_BadZone | dns_zone_NoSOA.

#[global] Instance exn_class_eq_dec : EqDecision exn_class.
Proof. solve_decision. Defined.

Definition bases (c : exn_class) : list exn_class :=
  match c with
  | BaseException => []
  | KeyboardInterrupt | SystemExit | Exception => [BaseException]
  | AttributeError | LookupError | ValueError | OSError
  | dns_exception_DNSException => [Exception]
  | IndexError => [LookupError]
  | UnicodeError | json_JSONDecodeError => [ValueError]
  | UnicodeDecodeError => [UnicodeError]
  | FileNotFoundError | PermissionError | TimeoutError | ConnectionError
  | requests_RequestException => [OSError]
  | ConnectionResetError | ConnectionRefusedError => [ConnectionError]
  | requests_ConnectionError | requests_Timeout
  | requests_InvalidJSONError => [requests_RequestException]
  | requests_JSONDecodeError => [requests_InvalidJSONError; json_JSONDecodeError]
  | dns_exception_FormError | dns_exception_Timeout
  | dns_resolver_NXDOMAIN | dns_resolver_NoAnswer | dns_resolver_NoNameservers
  | dns_xfr_TransferError | dns_query_UnexpectedSource
  | dns_zone_BadZone => [dns_exception_DNSException]
  | dns_resolver_LifetimeTimeout => [dns_exception_Timeout]
  | dns_query_BadResponse => [dns_exception_FormError]
  | dns_zone_NoSOA => [dns_zone_BadZone]
  end.

(** [issubclass_upto n c d]: [d] is reached from [c] in at most [n] steps
    along [bases]. *)
Fixpoint issubclass_upto (n : nat) (c d : exn_class) : bool :=
  bool_decide (c = d)
  || match n with
     | O => false
     | S n' => existsb (fun b => issubclass_upto n' b d) (bases c)
     end.

(** No chain of bases is longer than six classes. *)
Definition issubclass : exn_class -> exn_class -> bool := issubclass_upto 6.

Record exn := { exn_cls : exn_class; exn_str : string }.

(** [isinstance(e, (c1, ..., cn))] *)
Definition isinstance (e : exn) (cs : list exn_class) : bool :=
  existsb (issubclass (exn_cls e)) cs.

(** ** External collaborators *)

(** An A record; [str] of it is the dotted quad. *)
Record A_rdata := { octet1 : N; octet2 : N; octet3 : N; octet4 : N }.

Definition decimal (n : N) : string := NilZero.string_of_uint (N.to_uint n).

Definition A_to_text (a : A_rdata) : string :=
  decimal (octet1 a) +:+ "." +:+ decimal (octet2 a) +:+ "."
  +:+ decimal (octet3 a) +:+ "." +:+ decimal (octet4 a).

(** A transferred zone, each object through the text the script asks of it:
    [name.to_text()], [dns.rdatatype.to_text(rdataset.rdtype)] and
    [rdata.to_text()]. *)
Record Rdataset := { rdtype_text : string; rdata_texts : list string }.
Record Node := { rdatasets : list Rdataset }.
Definition Zone : Type := list (string * Node).

(** [subprocess.CompletedProcess] under [capture_output=True, text=True]. *)
Record CompletedProcess :=
  { returncode : Z; stdout : string; stderr : string }.

Inductive result (A : Type) :=
| Ok (a : A)
| Raise (e : exn).
Arguments Ok {A} a.
Arguments Raise {A} e.

(** A [requests.Response], through the only thing asked of it: [.json()]. *)
Record Response := { json : result pyval }.

Inductive call :=
| dns_resolver_resolve (qname rdtype : string)
| dns_query_xfr (server domain : string)
| subprocess_run (argv : list string)
| requests_get (url : string).

#[global] Instance call_eq_dec : EqDecision call.
Proof. solve_decision. Defined.

(** What each external call answers, given the calls made before it. *)
Record world := {
  (* dns.resolver.resolve(name, 'NS'): str(ns.target) of each record *)
  answer_NS : list call -> string -> result (list string);
  (* dns.resolver.resolve(name, 'A') *)
  answer_A : list call -> string -> result (list A_rdata);
  (* dns.zone.from_xfr(dns.query.xfr(server, domain)) *)
  answer_xfr : list call -> string -> string -> result Zone;
  (* subprocess.run(argv, capture_output=True, text=True) *)
  answer_run : list call -> list string -> result CompletedProcess;
  (* requests.get(url) *)
  answer_get : list call -> string -> result Response
}.

(** ** prettytable.PrettyTable and the console *)

Record PrettyTable := { field_names : list string; rows : list (list pyval) }.

Definition PrettyTable_new : PrettyTable := {| field_names := []; rows := [] |}.

Definition set_field_names (t : PrettyTable) (names : list string) : PrettyTable :=
  {| field_names := names; rows := rows t |}.

Inductive output :=
| Line (s : string)
| Table (t : PrettyTable).

Record state := { calls : list call; console : list output }.

(** ** The monad: state and exceptions *)

Definition M (A : Type) : Type := state -> result A * state.

Definition ret {A} (a : A) : M A := fun st => (Ok a, st).

Definition bind {A B} (m : M A) (k : A -> M B) : M B :=
  fun st =>
    match m st with
    | (Ok a, st') => k a st'
    | (Raise e, st') => (Raise e, st')
    end.

Definition raise {A} (e : exn) : M A := fun st => (Raise e, st).

Definition lift {A} (r : result A) : M A := fun st => (r, st).

Notation "x <- m ;; k" := (bind m (fun x => k))
  (at level 100, m at next level, right associativity).
Notation "m ;;; k" := (bind m (fun _ => k))
  (at level 100, right associativity).

Definition print (s : string) : M unit :=
  fun st => (Ok tt, {| calls := calls st; console := console st ++ [Line s] |}).

Definition print_table (t : PrettyTable) : M unit :=
  fun st => (Ok tt, {| calls := calls st; console := console st ++ [Table t] |}).

(** An external call: the world answers from the log, the call is logged. *)
Definition external {A} (c : call) (answer : list call -> result A) : M A :=
  fun st => (answer (calls st),
             {| calls := calls st ++ [c]; console := console st |}).

(** [except (c1, ..., cn) as e: handler] *)
Definition except_clause (A : Type) : Type := list exn_class * (exn -> M A).

Fixpoint handle {A} (clauses : list (except_clause A)) (e : exn) : M A :=
  match clauses with
  | [] => raise e
  | (cs, h) :: rest => if isinstance e cs then h e else handle rest e
  end.

Definition try_except {A} (body : M A) (clauses : list (except_clause A)) : M A :=
  fun st =>
    match body st with
    | (Ok a, st') => (Ok a, st')
    | (Raise e, st') => handle clauses e st'
    end.

(** [for x in xs: ...] collecting results, as in a list comprehension. *)
Fixpoint mapM {A B} (f : A -> M B) (xs : list A) : M (list B) :=
  match xs with
  | [] => ret []
  | x :: rest => y <- f x ;; ys <- mapM f rest ;; ret (y :: ys)
  end.

(** ** The script *)

Definition placeholder : string := "ASN description not available".
Definition no_threats : string := "No threats were found. Please try again.".

(** [obj.get(key, default)]: a dict method; any other decoded JSON value has
    no such attribute. *)
Definition py_get (obj : pyval) (key : string) (default : pyval) : M pyval :=
  match obj with
  | PyDict d =>
      match d !! key with
      | Some v => ret v
      | None => ret default
      end
  | _ => raise {| exn_cls := AttributeError;
                  exn_str := "'" +:+ type_name obj
                             +:+ "' object has no attribute 'get'" |}
  end.

(** [table.add_row(row)]: the library refuses a row whose length differs
    from the number of field names. *)
Definition add_row (t : PrettyTable) (row : list pyval) : M PrettyTable :=
  if (length row =? length (field_names t))%nat then
    ret {| field_names := field_names t; rows := rows t ++ [row] |}
  else
    raise {| exn_cls := ValueError;
             exn_str := "Row has incorrect number of values" |}.

(** The records of a zone, lines 20-25: one triple per rdata of each
    rdataset of each node. *)
Definition zone_records (zone : Zone) : list pyval :=
  flat_map (fun '(name, node) =>
    flat_map (fun rdataset =>
      map (fun rdata =>
             PyTuple [PyStr name; PyStr (rdtype_text rdataset); PyStr rdata])
          (rdata_texts rdataset))
      (rdatasets node))
    zone.

Definition nslookup_argv (domain server : string) : list string :=
  ["nslookup"; "-type=AXFR"; domain; server].
Definition dig_argv (domain server : string) : list string :=
  ["dig"; "@" +:+ server; domain; "AXFR"].
Definition nmap_argv (domain server : string) : list string :=
  ["nmap"; "--script"; "dns-zone-transfer"; "-p 53"; server].

(** [records if records else None] *)
Definition nonempty_or_None {A} (records : list A) : option (list A) :=
  match records with
  | [] => None
  | _ :: _ => Some records
  end.

(** Truth value of what a strategy returns: [None] and [[]] are false. *)
Definition truthy_records (records : option (list pyval)) : bool :=
  match records with
  | Some (_ :: _) => true
  | _ => false
  end.

(** Truth value of a resolved address: [None] and [""] are false. *)
Definition truthy_server (server : option string) : bool :=
  match server with
  | Some s => negb (String.eqb s "")
  | None => false
  end.

(** [break] and falling through to the next iteration. *)
Inductive loop_signal := Break | Next.

(** The four strategies, in the order [main] tries them. *)
Inductive strategy := dnspython | nslookup | dig | nmap.

Section Script.

Variable w : world.

Definition resolve_NS (name : string) : M (list string) :=
  external (dns_resolver_resolve name "NS") (fun log => answer_NS w log name).

Definition resolve_A (name : string) : M (list A_rdata) :=
  external (dns_resolver_resolve name "A") (fun log => answer_A w log name).

Definition from_xfr (server domain : string) : M Zone :=
  external (dns_query_xfr server domain)
           (fun log => answer_xfr w log server domain).

Definition run (argv : list string) : M CompletedProcess :=
  external (subprocess_run argv) (fun log => answer_run w log argv).

Definition get (url : string) : M Response :=
  external (requests_get url) (fun log => answer_get w log url).

(** Lines 10-15. *)
Definition resolve_ns_to_ip (ns_name : string) : M (option string) :=
  try_except
    (result <- resolve_A ns_name ;;
     match result with
     | first :: _ => ret (Some (A_to_text first))
     | [] => raise {| exn_cls := IndexError;
                      exn_str := "list index out of range" |}
     end)
    [([dns_resolver_NoAnswer; dns_resolver_NXDOMAIN; dns_exception_Timeout],
      fun _ => ret None)].

(** Lines 17-31. *)
Definition zone_transfer_dnspython (domain server : string)
  : M (option (list pyval)) :=
  try_except
    (zone <- from_xfr server domain ;;
     ret (Some (zone_records zone)))
    [([dns_xfr_TransferError; ConnectionResetError],
      fun e => print ("Error with dnspython: " +:+ exn_str e) ;;; ret None);
     ([dns_exception_FormError; dns_query_BadResponse;
       dns_query_UnexpectedSource; dns_exception_Timeout; ValueError],
      fun e => print ("Error with dnspython: " +:+ exn_str e) ;;; ret None)].

(** Lines 33-43. *)
Definition zone_transfer_nslookup (domain server : string)
  : M (option (list pyval)) :=
  try_except
    (result <- run (nslookup_argv domain server) ;;
     if str_in "transfer failed" (stderr result)
        || negb (returncode result =? 0)%Z
     then print "Transfer failed with nslookup." ;;; ret None
     else
       let records := map PyStr (splitlines (stdout result)) in
       ret (nonempty_or_None records))
    [([Exception],
      fun e => print ("Error with nslookup: " +:+ exn_str e) ;;; ret None)].

(** Lines 45-55. *)
Definition zone_transfer_dig (domain server : string)
  : M (option (list pyval)) :=
  try_except
    (result <- run (dig_argv domain server) ;;
     if str_in "Transfer failed" (stderr result)
        || negb (returncode result =? 0)%Z
     then print "Transfer failed with dig." ;;; ret None
     else
       let records := map PyStr (splitlines (stdout result)) in
       ret (nonempty_or_None records))
    [([Exception],
      fun e => print ("Error with dig: " +:+ exn_str e) ;;; ret None)].

(** Lines 57-67. *)
Definition zone_transfer_nmap (domain server : string)
  : M (option (list pyval)) :=
  try_except
    (result <- run (nmap_argv domain server) ;;
     if str_in "Transfer failed" (stderr result)
        || negb (returncode result =? 0)%Z
     then print "Transfer failed with nmap." ;;; ret None
     else
       let records := map PyStr (splitlines (stdout result)) in
       ret (nonempty_or_None records))
    [([Exception],
      fun e => print ("Error with nmap: " +:+ exn_str e) ;;; ret None)].

(** Lines 69-76. *)
Definition fetch_asn_description (ip_address : string) : M pyval :=
  try_except
    (response <- get ("https://ipinfo.io/" +:+ ip_address +:+ "/json") ;;
     data <- lift (json response) ;;
     py_get data "org" (PyStr placeholder))
    [([Exception],
      fun e => print ("Error fetching ASN description: " +:+ exn_str e) ;;;
               ret (PyStr placeholder))].

(** Lines 78-84; [main] does not call it. *)
Definition fetch_ns_records (domain : string) : M (list string) :=
  try_except
    (resolve_NS domain)
    [([Exception],
      fun e => print ("Error fetching NS records: " +:+ exn_str e) ;;; ret [])].

(** The locals of [main] that the probing loop updates. *)
Record probe_vars := { all_records : list pyval; successful : bool }.

(** What follows one strategy's call in the loop body: [if records: ...
    break / elif records is None: ... break], else go on with [otherwise]. *)
Definition after_strategy (tool server : string)
    (records : option (list pyval)) (v : probe_vars)
    (otherwise : M (loop_signal * probe_vars)) : M (loop_signal * probe_vars) :=
  if truthy_records records then
    ret (Break, {| all_records := all_records v ++ default [] records;
                   successful := true |})
  else
    match records with
    | None =>
        print ("Transfer failed or connection reset with " +:+ tool
               +:+ " server: " +:+ server) ;;;
        ret (Break, {| all_records := all_records v ++ [PyStr no_threats];
                       successful := successful v |})
    | Some _ => otherwise
    end.

(** Lines 102-150: the body of the loop over [ns_servers]. *)
Definition probe_server (domain : string) (server : option string)
    (v : probe_vars) : M (loop_signal * probe_vars) :=
  match server with
  | None => ret (Next, v)
  | Some server =>
      print ("Checking NS server: " +:+ server) ;;;
      records <- zone_transfer_dnspython domain server ;;
      after_strategy "dnspython" server records v (
      records <- zone_transfer_nslookup domain server ;;
      after_strategy "nslookup" server records v (
      records <- zone_transfer_dig domain server ;;
      after_strategy "dig" server records v (
      records <- zone_transfer_nmap domain server ;;
      after_strategy "nmap" server records v (
      ret (Next, v)))))
  end.

(** Lines 101-150. *)
Fixpoint probe_servers (domain : string) (ns_servers : list (option string))
    (v : probe_vars) : M probe_vars :=
  match ns_servers with
  | [] => ret v
  | server :: rest =>
      r <- probe_server domain server v ;;
      match r with
      | (Break, v') => ret v'
      | (Next, v') => probe_servers domain rest v'
      end
  end.

(** Lines 153-159. *)
Fixpoint asn_rows (ns_servers : list (option string)) (t : PrettyTable)
  : M PrettyTable :=
  match ns_servers with
  | [] => ret t
  | ns_server :: rest =>
      if truthy_server ns_server then
        let ip := default "" ns_server in
        asn_description <- fetch_asn_description ip ;;
        t' <- add_row t [PyStr ip; asn_description] ;;
        asn_rows rest t'
      else asn_rows rest t
  end.

(** Lines 165-166. *)
Fixpoint record_rows (records : list pyval) (t : PrettyTable) : M PrettyTable :=
  match records with
  | [] => ret t
  | record :: rest => t' <- add_row t [record] ;; record_rows rest t'
  end.

(** Lines 162-171. *)
Definition report (domain : string) (v : probe_vars) : M PrettyTable :=
  let result_table := PrettyTable_new in
  if successful v then
    let result_table := set_field_names result_table ["Threat successfully found"] in
    result_table <- record_rows (all_records v) result_table ;;
    print ("Zone transfer successful for domain " +:+ domain) ;;;
    ret result_table
  else
    let result_table := set_field_names result_table [no_threats] in
    result_table <- add_row result_table [PyStr "Transfer failed."] ;;
    print "Oh no! Unfortunately," ;;;
    ret result_table.

(** Lines 98-175: [main] once [ns_servers] is known. *)
Definition main_with (domain : string) (ns_servers : list (option string))
  : M unit :=
  v <- probe_servers domain ns_servers
         {| all_records := []; successful := false |} ;;
  let general_info_table :=
    set_field_names PrettyTable_new ["NS Record"; "ASN Description"] in
  general_info_table <- asn_rows ns_servers general_info_table ;;
  result_table <- report domain v ;;
  print_table result_table ;;;
  print (String LF "DNS INFO:") ;;;
  print_table general_info_table.

(** Lines 95-96. *)
Definition resolve_servers (domain : string) : M (list (option string)) :=
  ns_records <- resolve_NS domain ;;
  mapM resolve_ns_to_ip ns_records.

(** Lines 86-175; [domain] is [args.domain]. *)
Definition main (domain : string) : M unit :=
  ns_servers <- resolve_servers domain ;;
  main_with domain ns_servers.

Definition zone_transfer (s : strategy) : string -> string -> M (option (list pyval)) :=
  match s with
  | dnspython => zone_transfer_dnspython
  | nslookup => zone_transfer_nslookup
  | dig => zone_transfer_dig
  | nmap => zone_transfer_nmap
  end.

End Script.

Definition strategy_call (s : strategy) (domain server : string) : call :=
  match s with
  | dnspython => dns_query_xfr server domain
  | nslookup => subprocess_run (nslookup_argv domain server)
  | dig => subprocess_run (dig_argv domain server)
  | nmap => subprocess_run (nmap_argv domain server)
  end.

(** The marker each external tool's error stream is searched for. *)
Definition failure_marker (s : strategy) : option string :=
  match s with
  | dnspython => None
  | nslookup => Some "transfer failed"
  | dig | nmap => Some "Transfer failed"
  end.

(** The classes of the two [except] clauses of [zone_transfer_dnspython]. *)
Definition caught_by_dnspython : list exn_class :=
  [dns_xfr_TransferError; ConnectionResetError;
   dns_exception_FormError; dns_query_BadResponse;
   dns_query_UnexpectedSource; dns_exception_Timeout; ValueError].

(** What the external tool of a strategy comes back with, for the
    strategies that run one. *)
Definition tool_result (w : world) (s : strategy) (domain server : string)
    (st : state) : option (result CompletedProcess) :=
  match strategy_call s domain server with
  | subprocess_run argv => Some (answer_run w (calls st) argv)
  | _ => None
  end.

(** The calls through which a server is probed. *)
Definition is_probe (c : call) : bool :=
  match c with
  | dns_query_xfr _ _ | subprocess_run _ => true
  | _ => false
  end.

(** A call that starts [dig] or [nmap]. *)
Definition runs_dig_or_nmap (c : call) : bool :=
  match c with
  | subprocess_run (tool :: _) => String.eqb tool "dig" || String.eqb tool "nmap"
  | _ => false
  end.

(** A strategy's outcome that ends the probing: data or [None]. *)
Definition conclusive (records : option (list pyval)) : bool :=
  match records with
  | Some [] => false
  | _ => true
  end.

(** The addresses that resolved. *)
Definition resolved (ns_servers : list (option string)) : list string :=
  omap id ns_servers.

(** The addresses [main] asks the ASN service about: the true ones. *)
Definition shown_servers (ns_servers : list (option string)) : list string :=
  omap (fun server => if truthy_server server then server else None) ns_servers.

(** The [.get] of the decoded body, when it has one and the key is there. *)
Definition org_field (data : pyval) : option pyval :=
  match data with
  | PyDict d => d !! "org"
  | _ => None
  end.

Definition example_record : pyval :=
  PyTuple [PyStr "example.com."; PyStr "A"; PyStr "1.2.3.4"].

Definition failure_table : PrettyTable :=
  {| field_names := [no_threats]; rows := [[PyStr "Transfer failed."]] |}.

(** The tables and locals [main] starts from. *)
Definition general_info_table0 : PrettyTable :=
  set_field_names PrettyTable_new ["NS Record"; "ASN Description"].

Definition probe_vars0 : probe_vars :=
  {| all_records := []; successful := false |}.

(** The state after an external call, and after a [print]. *)
Definition logged (c : call) (st : state) : state :=
  {| calls := calls st ++ [c]; console := console st |}.

Definition printed (o : output) (st : state) : state :=
  {| calls := calls st; console := console st ++ [o] |}.

(** The three tool strategies are one function of the tool's name, its
    marker and its command line. *)
Definition tool_transfer (w : world) (tool marker : string) (argv : list string)
  : M (option (list pyval)) :=
  try_except
    (result <- run w argv ;;
     if str_in marker (stderr result) || negb (returncode result =? 0)%Z
     then print ("Transfer failed with " +:+ tool +:+ ".") ;;; ret None
     else ret (nonempty_or_None (map PyStr (splitlines (stdout result)))))
    [([Exception],
      fun e => print ("Error with " +:+ tool +:+ ": " +:+ exn_str e) ;;;
               ret None)].

Definition tool_name (s : strategy) : string :=
  match s with
  | dnspython => "dnspython"
  | nslookup => "nslookup"
  | dig => "dig"
  | nmap => "nmap"
  end.

(** The two logs the loop body can leave for a resolved server: the
    transfer alone, or the transfer, which returned the empty list, and
    then nslookup. *)
Inductive probed (w : world) (domain server : string) (st st' : state) : Prop :=
| probed_dnspython :
    calls st' = calls st ++ [strategy_call dnspython domain server] ->
    probed w domain server st st'
| probed_nslookup :
    calls st' = calls st ++ [strategy_call dnspython domain server;
                             strategy_call nslookup domain server] ->
    (forall st_s, calls st_s = calls st ->
       fst (zone_transfer w dnspython domain server st_s) = Ok (Some [])) ->
    probed w domain server st st'.

(** A world all of whose errors are among those the script catches where
    they arise. *)
Definition recoverable (w : world) : Prop :=
  (forall log server domain e,
      answer_xfr w log server domain = Raise e ->
      isinstance e caught_by_dnspython = true)
  /\ (forall log argv e,
         answer_run w log argv = Raise e -> isinstance e [Exception] = true)
  /\ (forall log url e,
         answer_get w log url = Raise e -> isinstance e [Exception] = true)
  /\ (forall log url response e,
         answer_get w log url = Ok response ->
         json response = Raise e -> isinstance e [Exception] = true).

(** The address the ASN service is asked at, line 71. *)
Definition asn_url (ip_address : string) : string :=
  "https://ipinfo.io/" +:+ ip_address +:+ "/json".

(** The number of rdata in a zone. *)
Definition rdata_count (zone : Zone) : nat :=
  list_sum (map (fun '(_, node) =>
                   list_sum (map (fun rdataset => length (rdata_texts rdataset))
                                 (rdatasets node)))
                zone).

(** A record as the library-native strategy builds it: a tuple of three
    strings. *)
Definition is_triple (record : pyval) : bool :=
  match record with
  | PyTuple [PyStr _; PyStr _; PyStr _] => true
  | _ => false
  end.

(** The strategy returned the empty list. *)
Definition returned_empty (r : result (option (list pyval))) : bool :=
  match r with
  | Ok (Some []) => true
  | _ => false
  end.

(** The probing calls of a run whose first resolved server is [server]. *)
Definition probes_of (w : world) (domain server : string) (st : state)
  : list call :=
  strategy_call dnspython domain server
  :: (if returned_empty (fst (zone_transfer w dnspython domain server st))
      then [strategy_call nslookup domain server] else []).

(** ** Concrete worlds *)

Definition st0 : state := {| calls := []; console := [] |}.

Definition address (n : N) : A_rdata :=
  {| octet1 := 192; octet2 := 0; octet3 := 2; octet4 := n |}.

Definition example_zone : Zone :=
  [("example.com.",
    {| rdatasets := [{| rdtype_text := "A"; rdata_texts := ["1.2.3.4"] |}] |})].

(** Three name servers, whose addresses follow the length of the log; the
    transfer is allowed; the ASN service answers. *)
Definition open_world : world :=
  {| answer_NS := fun _ _ =>
       Ok ["ns1.example.com."; "ns2.example.com."; "ns3.example.com."];
     answer_A := fun log _ => Ok [address (N.of_nat (length log))];
     answer_xfr := fun _ _ _ => Ok example_zone;
     answer_run := fun _ _ =>
       Ok {| returncode := 0; stdout := ""; stderr := "" |};
     answer_get := fun _ _ =>
       Ok {| json := Ok (PyDict {[ "org" := PyStr "AS64500 Example" ]}) |} |}.

(** The transfer is refused and the ASN service is unreachable. *)
Definition refusing_world : world :=
  {| answer_NS := answer_NS open_world;
     answer_A := answer_A open_world;
     answer_xfr := fun _ _ _ =>
       Raise {| exn_cls := dns_xfr_TransferError;
                exn_str := "Zone transfer error: REFUSED" |};
     answer_run := answer_run open_world;
     answer_get := fun _ _ =>
       Raise {| exn_cls := requests_ConnectionError;
                exn_str := "Max retries exceeded" |} |}.

(** The transfer yields an empty zone; the tools print one record. *)
Definition empty_zone_world : world :=
  {| answer_NS := answer_NS open_world;
     answer_A := answer_A open_world;
     answer_xfr := fun _ _ _ => Ok [];
     answer_run := fun _ _ =>
       Ok {| returncode := 0;
             stdout := "example.com. 3600 IN A 1.2.3.4" +:+ String LF "";
             stderr := "" |};
     answer_get := answer_get open_world |}.

(** The transfer yields an empty zone; the tools fail. *)
Definition failing_tool_world : world :=
  {| answer_NS := answer_NS open_world;
     answer_A := answer_A open_world;
     answer_xfr := fun _ _ _ => Ok [];
     answer_run := fun _ _ =>
       Ok {| returncode := 9; stdout := ""; stderr := "; Transfer failed." |};
     answer_get := answer_get open_world |}.

(** No name server has an address. *)
Definition unresolvable_world : world :=
  {| answer_NS := answer_NS open_world;
     answer_A := fun _ _ =>
       Raise {| exn_cls := dns_resolver_NXDOMAIN;
                exn_str := "The DNS query name does not exist" |};
     answer_xfr := answer_xfr open_world;
     answer_run := answer_run open_world;
     answer_get := answer_get open_world |}.

(** The domain's NS records cannot be fetched. *)
Definition no_NS_world : world :=
  {| answer_NS := fun _ _ =>
       Raise {| exn_cls := dns_resolver_NoNameservers;
                exn_str := "All nameservers failed to answer the query" |};
     answer_A := answer_A open_world;
     answer_xfr := answer_xfr open_world;
     answer_run := answer_run open_world;
     answer_get := answer_get open_world |}.

(** The transfer yields an empty zone; no tool is installed. *)
Definition no_tools_world : world :=
  {| answer_NS := answer_NS open_world;
     answer_A := answer_A open_world;
     answer_xfr := fun _ _ _ => Ok [];
     answer_run := fun _ _ =>
       Raise {| exn_cls := FileNotFoundError;
                exn_str := "[Errno 2] No such file or directory" |};
     answer_get := answer_get open_world |}.

(** Nothing listens on the servers' port 53. *)
Definition closed_port_world : world :=
  {| answer_NS := answer_NS open_world;
     answer_A := answer_A open_world;
     answer_xfr := fun _ _ _ =>
       Raise {| exn_cls := ConnectionRefusedError;
                exn_str := "[Errno 111] Connection refused" |};
     answer_run := answer_run open_world;
     answer_get := answer_get open_world |}.

(** The second name server's address lookup finds no working resolver. *)
Definition lame_world : world :=
  {| answer_NS := answer_NS open_world;
     answer_A := fun log name =>
       if String.eqb name "ns2.example.com."
       then Raise {| exn_cls := dns_resolver_NoNameservers;
                     exn_str := "All nameservers failed to answer the query" |}
       else answer_A open_world log name;
     answer_xfr := answer_xfr open_world;
     answer_run := answer_run open_world;
     answer_get := answer_get open_world |}.

(** * Properties *)

(** ** Strings and exception classes *)

Lemma append_nonempty_r (s t : string) : t <> "" -> s +:+ t <> "".
Proof. destruct s; simpl; [trivial | discriminate]. Qed.

Lemma A_to_text_nonempty (a : A_rdata) : A_to_text a <> "".
Proof.
  unfold A_to_text. apply append_nonempty_r. simpl. discriminate.
Qed.

Lemma truthy_server_address (a : A_rdata) :
  truthy_server (Some (A_to_text a)) = true.
Proof.
  simpl. destruct (String.eqb_spec (A_to_text a) ""); [|reflexivity].
  exfalso. eapply A_to_text_nonempty; eassumption.
Qed.

Lemma splitlines_from_cur (s cur : string) :
  cur <> "" -> splitlines_from s cur <> [].
Proof.
  revert cur. induction s as [|c rest IH]; intros cur Hcur; simpl.
  - destruct (String.eqb_spec cur ""); congruence.
  - destruct (is_linebreak c).
    + destruct (Ascii.eqb c CR); [destruct rest as [|c' rest']|];
        try destruct (Ascii.eqb c' LF); discriminate.
    + apply IH. destruct cur; simpl; discriminate.
Qed.

(** [splitlines] gives no line exactly on the empty string. *)
Lemma splitlines_nil (s : string) : splitlines s = [] <-> s = "".
Proof.
  split; [|intros ->; reflexivity].
  unfold splitlines. destruct s as [|c rest]; [reflexivity|]. simpl.
  destruct (is_linebreak c).
  - destruct (Ascii.eqb c CR); [destruct rest as [|c' rest']|];
      try destruct (Ascii.eqb c' LF); discriminate.
  - intros H. exfalso. revert H. apply splitlines_from_cur. discriminate.
Qed.

Arguments issubclass : simpl never.
Arguments isinstance : simpl never.

Lemma issubclass_refl (c : exn_class) : issubclass c c = true.
Proof.
  unfold issubclass. cbn [issubclass_upto].
  rewrite bool_decide_eq_true_2; reflexivity.
Qed.

(** Whatever derives from a class that derives from [Exception] is caught
    by [except Exception]. *)
Lemma subclass_of_Exception (e : exn) (c : exn_class) :
  issubclass c Exception = true ->
  issubclass (exn_cls e) c = true ->
  isinstance e [Exception] = true.
Proof.
  unfold isinstance. cbn [existsb]. rewrite orb_false_r.
  destruct e as [cls msg]. cbn [exn_cls].
  destruct c; try discriminate; intros _; destruct cls;
    vm_compute; congruence.
Qed.

Lemma isinstance_app (e : exn) (cs ds : list exn_class) :
  isinstance e (cs ++ ds) = isinstance e cs || isinstance e ds.
Proof. unfold isinstance. apply existsb_app. Qed.

Lemma nonempty_or_None_conclusive (records : list pyval) :
  conclusive (nonempty_or_None records) = true.
Proof. destruct records; reflexivity. Qed.

(** ** The monad *)

Lemma bind_run {A B} (m : M A) (k : A -> M B) (st : state) :
  bind m k st = match m st with
                | (Ok a, st') => k a st'
                | (Raise e, st') => (Raise e, st')
                end.
Proof. reflexivity. Qed.

Lemma bind_Ok {A B} (m : M A) (k : A -> M B) st a st' :
  m st = (Ok a, st') -> bind m k st = k a st'.
Proof. intros H. rewrite bind_run, H. reflexivity. Qed.

Lemma bind_Raise {A B} (m : M A) (k : A -> M B) st e st' :
  m st = (Raise e, st') -> bind m k st = (Raise e, st').
Proof. intros H. rewrite bind_run, H. reflexivity. Qed.

(** ** The strategies *)

Section Strategies.

Variable w : world.

Lemma zone_transfer_tool (s : strategy) (marker domain server : string) :
  failure_marker s = Some marker ->
  exists argv,
    strategy_call s domain server = subprocess_run argv /\
    zone_transfer w s domain server = tool_transfer w (tool_name s) marker argv.
Proof.
  destruct s; simpl; intros [= <-]; eexists; split; reflexivity.
Qed.

Lemma tool_transfer_run (tool marker : string) (argv : list string) (st : state) :
  tool_transfer w tool marker argv st =
  let st1 := logged (subprocess_run argv) st in
  match answer_run w (calls st) argv with
  | Ok result =>
      if str_in marker (stderr result) || negb (returncode result =? 0)%Z
      then (Ok None, printed (Line ("Transfer failed with " +:+ tool +:+ ".")) st1)
      else (Ok (nonempty_or_None (map PyStr (splitlines (stdout result)))), st1)
  | Raise e =>
      if isinstance e [Exception]
      then (Ok None,
            printed (Line ("Error with " +:+ tool +:+ ": " +:+ exn_str e)) st1)
      else (Raise e, st1)
  end.
Proof.
  unfold tool_transfer, try_except, bind, run, external. simpl.
  destruct (answer_run w (calls st) argv) as [result|e]; simpl.
  - destruct (str_in marker (stderr result) || negb (returncode result =? 0)%Z);
      reflexivity.
  - destruct (isinstance e [Exception]); reflexivity.
Qed.

Lemma zone_transfer_dnspython_run (domain server : string) (st : state) :
  zone_transfer_dnspython w domain server st =
  let st1 := logged (dns_query_xfr server domain) st in
  match answer_xfr w (calls st) server domain with
  | Ok zone => (Ok (Some (zone_records zone)), st1)
  | Raise e =>
      if isinstance e caught_by_dnspython
      then (Ok None, printed (Line ("Error with dnspython: " +:+ exn_str e)) st1)
      else (Raise e, st1)
  end.
Proof.
  unfold zone_transfer_dnspython, try_except, bind, from_xfr, external. simpl.
  destruct (answer_xfr w (calls st) server domain) as [zone|e]; simpl;
    [reflexivity|].
  change caught_by_dnspython
    with ([dns_xfr_TransferError; ConnectionResetError]
          ++ [dns_exception_FormError; dns_query_BadResponse;
              dns_query_UnexpectedSource; dns_exception_Timeout; ValueError]).
  rewrite isinstance_app.
  destruct (isinstance e [dns_xfr_TransferError; ConnectionResetError]);
    [reflexivity|].
  destruct (isinstance e [dns_exception_FormError; dns_query_BadResponse;
                          dns_query_UnexpectedSource; dns_exception_Timeout;
                          ValueError]); reflexivity.
Qed.

(** Every strategy makes exactly its own external call. *)
Lemma zone_transfer_calls (s : strategy) (domain server : string) (st : state) :
  calls (snd (zone_transfer w s domain server st))
  = calls st ++ [strategy_call s domain server].
Proof.
  destruct s; simpl.
  - rewrite zone_transfer_dnspython_run. simpl.
    destruct (answer_xfr w (calls st) server domain) as [zone|e];
      [reflexivity|].
    match goal with |- context [isinstance e ?cs] =>
      destruct (isinstance e cs) end; reflexivity.
  - change (zone_transfer_nslookup w domain server)
      with (tool_transfer w "nslookup" "transfer failed" (nslookup_argv domain server)).
    rewrite tool_transfer_run. simpl.
    destruct (answer_run w (calls st) (nslookup_argv domain server)) as [p|e].
    + match goal with |- context [if ?b then _ else _] => destruct b end;
        reflexivity.
    + destruct (isinstance e [Exception]); reflexivity.
  - change (zone_transfer_dig w domain server)
      with (tool_transfer w "dig" "Transfer failed" (dig_argv domain server)).
    rewrite tool_transfer_run. simpl.
    destruct (answer_run w (calls st) (dig_argv domain server)) as [p|e].
    + match goal with |- context [if ?b then _ else _] => destruct b end;
        reflexivity.
    + destruct (isinstance e [Exception]); reflexivity.
  - change (zone_transfer_nmap w domain server)
      with (tool_transfer w "nmap" "Transfer failed" (nmap_argv domain server)).
    rewrite tool_transfer_run. simpl.
    destruct (answer_run w (calls st) (nmap_argv domain server)) as [p|e].
    + match goal with |- context [if ?b then _ else _] => destruct b end;
        reflexivity.
    + destruct (isinstance e [Exception]); reflexivity.
Qed.

End Strategies.

Section StrategyClaims.

Variable w : world.

(** C3: for each of the four strategies, when the external tool the
    strategy runs comes back with a non-zero exit code, or with the
    strategy's failure marker in its error stream, the strategy returns
    None and raises nothing.  (The library-native strategy runs no tool:
    it has no such result, and C4 covers its failures.) *)
Theorem failed_tool_is_definitive_failure
    (s : strategy) (domain server : string) (st : state) (p : CompletedProcess) :
  tool_result w s domain server st = Some (Ok p) ->
  (returncode p <> 0%Z
   \/ exists marker, failure_marker s = Some marker
                     /\ str_in marker (stderr p) = true) ->
  exists st', zone_transfer w s domain server st = (Ok None, st').
Proof.
  intros Hrun Hfail.
  assert (exists marker, failure_marker s = Some marker) as [marker Hm]
    by (destruct s; simpl in *; [discriminate | eauto ..]).
  destruct (zone_transfer_tool w s marker domain server Hm) as (argv & Hc & ->).
  unfold tool_result in Hrun. rewrite Hc in Hrun. injection Hrun as Hrun.
  rewrite tool_transfer_run, Hrun. cbn zeta.
  assert (str_in marker (stderr p) || negb (returncode p =? 0)%Z = true) as ->.
  { destruct Hfail as [Hrc | (m & Hm' & Hin)].
    - apply orb_true_iff. right. apply negb_true_iff, Z.eqb_neq, Hrc.
    - rewrite Hm in Hm'. injection Hm' as <-. rewrite Hin. reflexivity. }
  eauto.
Qed.

(** C4: when the transfer raises a connection reset, a transfer protocol
    error, a malformed response, an unexpected responder, a timeout or a
    value error (or a subclass of one of them), zone_transfer_dnspython
    logs it and returns None; the exception does not propagate. *)
Theorem dnspython_converts_transfer_errors
    (domain server : string) (st : state) (e : exn) :
  answer_xfr w (calls st) server domain = Raise e ->
  isinstance e caught_by_dnspython = true ->
  zone_transfer_dnspython w domain server st
  = (Ok None,
     printed (Line ("Error with dnspython: " +:+ exn_str e))
             (logged (dns_query_xfr server domain) st)).
Proof.
  intros Hxfr Hcls. rewrite zone_transfer_dnspython_run, Hxfr. cbn zeta.
  rewrite Hcls. reflexivity.
Qed.

(** C9: resolve_ns_to_ip returns the text of the first address of the
    answer; when the lookup raises NoAnswer, NXDOMAIN or Timeout it returns
    None and raises nothing. *)
Theorem resolve_ns_to_ip_first_or_absent (ns_name : string) (st : state) :
  (forall first others,
      answer_A w (calls st) ns_name = Ok (first :: others) ->
      resolve_ns_to_ip w ns_name st
      = (Ok (Some (A_to_text first)),
         logged (dns_resolver_resolve ns_name "A") st))
  /\ (forall e,
         answer_A w (calls st) ns_name = Raise e ->
         isinstance e [dns_resolver_NoAnswer; dns_resolver_NXDOMAIN;
                       dns_exception_Timeout] = true ->
         resolve_ns_to_ip w ns_name st
         = (Ok None, logged (dns_resolver_resolve ns_name "A") st)).
Proof.
  split.
  - intros first others H.
    unfold resolve_ns_to_ip, try_except, bind, resolve_A, external.
    rewrite H. reflexivity.
  - intros e H Hcls.
    unfold resolve_ns_to_ip, try_except, bind, resolve_A, external.
    rewrite H. simpl. rewrite Hcls. reflexivity.
Qed.

(** C5: fetch_asn_description returns the placeholder when the request
    raises a network error, when the body is not JSON, and when the JSON
    has no organization field; the error does not propagate.  Otherwise it
    returns what the JSON holds under "org". *)
Theorem fetch_asn_description_placeholder_or_org
    (ip_address : string) (st : state) :
  let url := "https://ipinfo.io/" +:+ ip_address +:+ "/json" in
  let returned := fst (fetch_asn_description w ip_address st) in
  (forall e, answer_get w (calls st) url = Raise e ->
             issubclass (exn_cls e) OSError = true ->
             returned = Ok (PyStr placeholder))
  /\ (forall response e,
         answer_get w (calls st) url = Ok response ->
         json response = Raise e ->
         issubclass (exn_cls e) ValueError = true ->
         returned = Ok (PyStr placeholder))
  /\ (forall response data,
         answer_get w (calls st) url = Ok response ->
         json response = Ok data ->
         org_field data = None ->
         returned = Ok (PyStr placeholder))
  /\ (forall response data org,
         answer_get w (calls st) url = Ok response ->
         json response = Ok data ->
         org_field data = Some org ->
         returned = Ok org).
Proof.
  cbn zeta.
  unfold fetch_asn_description, try_except, bind, get, external, lift.
  repeat split.
  - intros e H Hcls. rewrite H. simpl.
    rewrite (subclass_of_Exception e OSError) by (reflexivity || assumption).
    reflexivity.
  - intros response e H Hj Hcls. rewrite H, Hj. simpl.
    rewrite (subclass_of_Exception e ValueError) by (reflexivity || assumption).
    reflexivity.
  - intros response data H Hj Horg. rewrite H, Hj.
    destruct data; simpl in *; try reflexivity.
    rewrite Horg. reflexivity.
  - intros response data org H Hj Horg. rewrite H, Hj.
    destruct data; simpl in *; try discriminate.
    rewrite Horg. reflexivity.
Qed.

End StrategyClaims.

(** ** The probing loop *)

Section Probing.

Variable w : world.

(** What a strategy returns depends on the log alone, not on the console. *)
Lemma zone_transfer_outcome_log (s : strategy) (domain server : string)
    (st1 st2 : state) :
  calls st1 = calls st2 ->
  fst (zone_transfer w s domain server st1)
  = fst (zone_transfer w s domain server st2).
Proof.
  intros Hlog.
  destruct (failure_marker s) as [marker|] eqn:Hm.
  - destruct (zone_transfer_tool w s marker domain server Hm) as (argv & _ & ->).
    rewrite !tool_transfer_run, Hlog. cbn zeta.
    destruct (answer_run w (calls st2) argv) as [p|e].
    + match goal with |- context [if ?b then _ else _] => destruct b end;
        reflexivity.
    + destruct (isinstance e [Exception]); reflexivity.
  - destruct s; try discriminate. simpl.
    rewrite !zone_transfer_dnspython_run, Hlog. cbn zeta.
    destruct (answer_xfr w (calls st2) server domain) as [zone|e];
      [reflexivity|].
    destruct (isinstance e caught_by_dnspython); reflexivity.
Qed.

(** A tool strategy never returns the empty list. *)
Lemma tool_transfer_conclusive (tool marker : string) (argv : list string)
    (st st' : state) (records : option (list pyval)) :
  tool_transfer w tool marker argv st = (Ok records, st') ->
  conclusive records = true.
Proof.
  rewrite tool_transfer_run. cbn zeta.
  destruct (answer_run w (calls st) argv) as [p|e].
  - match goal with |- context [if ?b then _ else _] => destruct b end;
      intros [= <- _]; [reflexivity | apply nonempty_or_None_conclusive].
  - destruct (isinstance e [Exception]); [|discriminate].
    intros [= <- _]. reflexivity.
Qed.

Lemma after_strategy_break (tool server : string)
    (records : option (list pyval)) (v : probe_vars)
    (otherwise : M (loop_signal * probe_vars)) (st : state) :
  conclusive records = true ->
  exists v' st',
    after_strategy tool server records v otherwise st = (Ok (Break, v'), st')
    /\ calls st' = calls st.
Proof.
  destruct records as [[|x l]|]; [discriminate| |]; intros _;
    unfold after_strategy; simpl; eauto.
Qed.

Lemma after_strategy_empty (tool server : string) (v : probe_vars)
    (otherwise : M (loop_signal * probe_vars)) :
  after_strategy tool server (Some []) v otherwise = otherwise.
Proof. reflexivity. Qed.

Lemma probe_server_Some (domain server : string) (v : probe_vars) (st : state) :
  exists r st',
    probe_server w domain (Some server) v st = (r, st')
    /\ probed w domain server st st'
    /\ (forall v', r <> Ok (Next, v')).
Proof.
  unfold probe_server. rewrite bind_run. cbn [print].
  set (st1 := {| calls := calls st; console := _ |}).
  rewrite bind_run.
  pose proof (zone_transfer_calls w dnspython domain server st1) as Hc1.
  pose proof (zone_transfer_outcome_log dnspython domain server st1) as Hlog.
  cbn [zone_transfer] in Hc1, Hlog.
  destruct (zone_transfer_dnspython w domain server st1) as [r1 st2].
  cbn [snd fst] in Hc1, Hlog. change (calls st1) with (calls st) in Hc1.
  destruct r1 as [records|e].
  2:{ eexists _, _. split; [reflexivity|].
      split; [apply probed_dnspython; exact Hc1 | discriminate]. }
  destruct (conclusive records) eqn:Hconcl.
  { destruct (after_strategy_break "dnspython" server records v
                (records0 <- zone_transfer_nslookup w domain server ;;
                 after_strategy "nslookup" server records0 v (
                 records1 <- zone_transfer_dig w domain server ;;
                 after_strategy "dig" server records1 v (
                 records2 <- zone_transfer_nmap w domain server ;;
                 after_strategy "nmap" server records2 v (ret (Next, v)))))
                st2 Hconcl) as (v' & st' & -> & Hst').
    eexists _, _. split; [reflexivity|].
    split; [apply probed_dnspython; congruence | discriminate]. }
  destruct records as [[|x l]|]; try discriminate.
  rewrite after_strategy_empty, bind_run.
  pose proof (zone_transfer_calls w nslookup domain server st2) as Hc2.
  pose proof (tool_transfer_conclusive "nslookup" "transfer failed"
                (nslookup_argv domain server) st2) as Hn.
  change (tool_transfer w "nslookup" "transfer failed"
            (nslookup_argv domain server))
    with (zone_transfer_nslookup w domain server) in Hn.
  cbn [zone_transfer] in Hc2.
  destruct (zone_transfer_nslookup w domain server st2) as [r2 st3].
  cbn [snd] in Hc2.
  assert (probed w domain server st st3) as Hprobed.
  { apply probed_nslookup.
    - rewrite Hc2, Hc1, <- app_assoc. reflexivity.
    - intros st_s Hs. cbn [zone_transfer]. symmetry. apply Hlog.
      symmetry. exact Hs. }
  assert (forall st', calls st' = calls st3 -> probed w domain server st st')
    as Hprobed'.
  { intros st' Hst'. destruct Hprobed as [H|H H'];
      [apply probed_dnspython; congruence
      | apply probed_nslookup; [congruence | exact H']]. }
  destruct r2 as [records|e].
  2:{ eexists _, _. split; [reflexivity|]. split; [exact Hprobed | discriminate]. }
  destruct (after_strategy_break "nslookup" server records v
              (records1 <- zone_transfer_dig w domain server ;;
               after_strategy "dig" server records1 v (
               records2 <- zone_transfer_nmap w domain server ;;
               after_strategy "nmap" server records2 v (ret (Next, v))))
              st3 (Hn _ _ eq_refl)) as (v' & st' & -> & Hst').
  eexists _, _. split; [reflexivity|].
  split; [apply Hprobed'; exact Hst' | discriminate].
Qed.

(** The whole loop: nothing probed, or exactly one server probed. *)
Lemma probe_servers_shape (domain : string) (ns_servers : list (option string))
    (v : probe_vars) (st : state) :
  exists r st',
    probe_servers w domain ns_servers v st = (r, st')
    /\ (calls st' = calls st \/ exists server, probed w domain server st st').
Proof.
  revert v st. induction ns_servers as [|[server|] rest IH]; intros v st.
  - eexists _, _. split; [reflexivity | left; reflexivity].
  - destruct (probe_server_Some domain server v st) as (r & st' & E & P & NN).
    cbn [probe_servers]. rewrite bind_run, E.
    destruct r as [[[|] v']|e].
    + eexists _, _. split; [reflexivity | right; eauto].
    + exfalso. eapply NN. reflexivity.
    + eexists _, _. split; [reflexivity | right; eauto].
  - cbn [probe_servers]. apply IH.
Qed.

Lemma probe_servers_absent (domain : string) (ns_servers : list (option string))
    (v : probe_vars) (st : state) :
  Forall (fun server => server = None) ns_servers ->
  probe_servers w domain ns_servers v st = (Ok v, st).
Proof.
  induction 1 as [|server rest -> _ IH]; [reflexivity|].
  cbn [probe_servers]. exact IH.
Qed.

(** Absent addresses before the first resolved one are passed over. *)
Lemma probe_servers_skip (domain : string) (skipped rest : list (option string))
    (v : probe_vars) (st : state) :
  Forall (fun server => server = None) skipped ->
  probe_servers w domain (skipped ++ rest) v st
  = probe_servers w domain rest v st.
Proof.
  induction 1 as [|server skipped' -> _ IH]; [reflexivity|].
  cbn [app probe_servers]. exact IH.
Qed.

End Probing.

(** ** Resolution and reporting *)

Section Reporting.

Variable w : world.

Lemma resolve_ns_to_ip_calls (ns_name : string) (st : state) :
  calls (snd (resolve_ns_to_ip w ns_name st))
  = calls st ++ [dns_resolver_resolve ns_name "A"].
Proof.
  unfold resolve_ns_to_ip, try_except, bind, resolve_A, external. simpl.
  destruct (answer_A w (calls st) ns_name) as [[|first others]|e]; simpl;
    try reflexivity;
    match goal with |- context [isinstance ?e ?cs] =>
      destruct (isinstance e cs) end; reflexivity.
Qed.

(** A resolved address is the text of an A record, hence true. *)
Lemma resolve_ns_to_ip_truthy (ns_name : string) (st st' : state)
    (server : option string) :
  resolve_ns_to_ip w ns_name st = (Ok server, st') ->
  server = None \/ truthy_server server = true.
Proof.
  unfold resolve_ns_to_ip, try_except, bind, resolve_A, external. simpl.
  destruct (answer_A w (calls st) ns_name) as [[|first others]|e]; simpl.
  - discriminate.
  - intros [= <- _]. right. apply truthy_server_address.
  - match goal with |- context [isinstance ?e ?cs] =>
      destruct (isinstance e cs) end; [|discriminate].
    intros [= <- _]. left. reflexivity.
Qed.

Lemma mapM_resolve_calls (names : list string) (st : state) :
  exists made,
    calls (snd (mapM (resolve_ns_to_ip w) names st)) = calls st ++ made
    /\ Forall (fun c => is_probe c = false) made.
Proof.
  revert st. induction names as [|name rest IH]; intros st.
  - exists []. split; [symmetry; apply app_nil_r | constructor].
  - cbn [mapM]. rewrite bind_run.
    pose proof (resolve_ns_to_ip_calls name st) as H1.
    destruct (resolve_ns_to_ip w name st) as [[server|e] st1]; cbn [snd] in H1.
    + rewrite bind_run. destruct (IH st1) as (made & H2 & Hmade).
      destruct (mapM (resolve_ns_to_ip w) rest st1) as [[servers|e] st2];
        cbn [snd ret] in H2 |- *;
        (exists (dns_resolver_resolve name "A" :: made);
         split; [rewrite H2, H1, <- app_assoc; reflexivity
                | constructor; [reflexivity | exact Hmade]]).
    + exists [dns_resolver_resolve name "A"].
      split; [exact H1 | repeat constructor].
Qed.

Lemma mapM_resolve_truthy (names : list string) (st st' : state)
    (ns_servers : list (option string)) :
  mapM (resolve_ns_to_ip w) names st = (Ok ns_servers, st') ->
  Forall (fun server => server = None \/ truthy_server server = true) ns_servers.
Proof.
  revert st st' ns_servers.
  induction names as [|name rest IH]; intros st st' ns_servers.
  - intros [= <- _]. constructor.
  - cbn [mapM]. rewrite bind_run.
    destruct (resolve_ns_to_ip w name st) as [[server|e] st1] eqn:E1;
      [|discriminate].
    rewrite bind_run.
    destruct (mapM (resolve_ns_to_ip w) rest st1) as [[servers|e] st2] eqn:E2;
      [|discriminate].
    intros [= <- _]. constructor.
    + eapply resolve_ns_to_ip_truthy; eassumption.
    + eapply IH; eassumption.
Qed.

Lemma resolve_servers_calls (domain : string) (st : state) :
  exists made,
    calls (snd (resolve_servers w domain st)) = calls st ++ made
    /\ Forall (fun c => is_probe c = false) made.
Proof.
  unfold resolve_servers. rewrite bind_run. unfold resolve_NS at 1, external.
  destruct (answer_NS w (calls st) domain) as [names|e].
  - destruct (mapM_resolve_calls names
                {| calls := calls st ++ [dns_resolver_resolve domain "NS"];
                   console := console st |}) as (made & H & Hmade).
    exists (dns_resolver_resolve domain "NS" :: made).
    split; [rewrite H; cbn [calls]; rewrite <- app_assoc; reflexivity
           | constructor; [reflexivity | exact Hmade]].
  - exists [dns_resolver_resolve domain "NS"].
    split; [reflexivity | repeat constructor].
Qed.

Lemma resolve_servers_truthy (domain : string) (st st' : state)
    (ns_servers : list (option string)) :
  resolve_servers w domain st = (Ok ns_servers, st') ->
  shown_servers ns_servers = resolved ns_servers.
Proof.
  unfold resolve_servers. rewrite bind_run. unfold resolve_NS at 1, external.
  destruct (answer_NS w (calls st) domain) as [names|e]; [|discriminate].
  intros H. apply mapM_resolve_truthy in H.
  unfold shown_servers, resolved.
  induction H as [|server rest Hs _ IH]; [reflexivity|].
  change (match (if truthy_server server then server else None) with
          | Some ip => ip :: shown_servers rest
          | None => shown_servers rest
          end
          = match id server with
            | Some ip => ip :: resolved rest
            | None => resolved rest
            end).
  unfold shown_servers, resolved. rewrite IH.
  destruct Hs as [-> | Hs]; [reflexivity | rewrite Hs; reflexivity].
Qed.

Lemma fetch_asn_description_calls (ip_address : string) (st : state) :
  calls (snd (fetch_asn_description w ip_address st))
  = calls st ++ [requests_get ("https://ipinfo.io/" +:+ ip_address +:+ "/json")].
Proof.
  unfold fetch_asn_description, try_except, bind, get, external, lift, py_get.
  cbn [calls].
  destruct (answer_get w (calls st) _) as [response|e]; cbn [handle].
  - destruct (json response) as [data|e]; cbn [handle].
    + destruct data; try (cbn [raise handle];
        match goal with |- context [isinstance ?e ?cs] =>
          destruct (isinstance e cs) end; reflexivity).
      destruct (d !! "org"); reflexivity.
    + destruct (isinstance e [Exception]); reflexivity.
  - destruct (isinstance e [Exception]); reflexivity.
Qed.

Lemma add_row_state (t : PrettyTable) (row : list pyval) (st : state) :
  snd (add_row t row st) = st.
Proof.
  unfold add_row. destruct (length row =? length (field_names t))%nat;
    reflexivity.
Qed.

Lemma add_row_Ok (t t' : PrettyTable) (row : list pyval) (st st' : state) :
  add_row t row st = (Ok t', st') ->
  field_names t' = field_names t /\ rows t' = rows t ++ [row].
Proof.
  unfold add_row. destruct (length row =? length (field_names t))%nat;
    [|discriminate].
  intros [= <- _]. split; reflexivity.
Qed.

Lemma asn_rows_calls (ns_servers : list (option string)) (t : PrettyTable)
    (st : state) :
  exists made,
    calls (snd (asn_rows w ns_servers t st)) = calls st ++ made
    /\ Forall (fun c => is_probe c = false) made.
Proof.
  revert t st. induction ns_servers as [|ns_server rest IH]; intros t st.
  - exists []. split; [symmetry; apply app_nil_r | constructor].
  - cbn [asn_rows]. destruct (truthy_server ns_server); [|apply IH].
    rewrite bind_run.
    pose proof (fetch_asn_description_calls (default "" ns_server) st) as H1.
    destruct (fetch_asn_description w (default "" ns_server) st)
      as [[description|e] st1]; cbn [snd] in H1.
    + rewrite bind_run.
      pose proof (add_row_state t [PyStr (default "" ns_server); description] st1)
        as H2.
      destruct (add_row t [PyStr (default "" ns_server); description] st1)
        as [[t'|e] st2]; cbn [snd] in H2; subst st2.
      * destruct (IH t' st1) as (made & H3 & Hmade).
        eexists (_ :: made).
        split; [rewrite H3, H1, <- app_assoc; reflexivity
               | constructor; [reflexivity | exact Hmade]].
      * eexists [_]. split; [exact H1 | repeat constructor].
    + eexists [_]. split; [exact H1 | repeat constructor].
Qed.

(** The rows the ASN loop adds: one per true address, in order. *)
Lemma asn_rows_Ok (ns_servers : list (option string)) (t t' : PrettyTable)
    (st st' : state) :
  asn_rows w ns_servers t st = (Ok t', st') ->
  field_names t' = field_names t
  /\ exists added,
       rows t' = rows t ++ added
       /\ Forall2 (fun ip row => exists description, row = [PyStr ip; description])
                  (shown_servers ns_servers) added.
Proof.
  revert t st. induction ns_servers as [|ns_server rest IH]; intros t st.
  - intros [= <- _]. split; [reflexivity|].
    exists []. split; [symmetry; apply app_nil_r | constructor].
  - cbn [asn_rows].
    change (shown_servers (ns_server :: rest))
      with (match (if truthy_server ns_server then ns_server else None) with
            | Some ip => ip :: shown_servers rest
            | None => shown_servers rest
            end).
    destruct (truthy_server ns_server) eqn:Htrue; [|apply IH].
    destruct ns_server as [ip|]; [|discriminate].
    change (default "" (Some ip)) with ip.
    rewrite bind_run.
    destruct (fetch_asn_description w ip st) as [[description|e] st1];
      [|discriminate].
    rewrite bind_run.
    destruct (add_row t [PyStr ip; description] st1) as [[t1|e] st2] eqn:Hadd;
      [|discriminate].
    apply add_row_Ok in Hadd. destruct Hadd as [Hf Hr].
    intros H. apply IH in H. destruct H as (Hf' & added & Hr' & Hall).
    split; [congruence|].
    exists ([PyStr ip; description] :: added).
    split; [rewrite Hr', Hr, <- app_assoc; reflexivity|].
    constructor; [eauto | exact Hall].
Qed.

Lemma record_rows_run (records : list pyval) (t : PrettyTable) (st : state) :
  length (field_names t) = 1%nat ->
  record_rows records t st
  = (Ok {| field_names := field_names t;
           rows := rows t ++ map (fun record => [record]) records |}, st).
Proof.
  revert t. induction records as [|record rest IH]; intros t Hlen.
  - cbn [record_rows map]. rewrite app_nil_r. destruct t; reflexivity.
  - cbn [record_rows]. rewrite bind_run. unfold add_row at 1.
    rewrite Hlen. cbn [length Nat.eqb ret].
    rewrite IH by exact Hlen. cbn [field_names rows map].
    rewrite <- app_assoc. reflexivity.
Qed.

Lemma report_success (domain : string) (v : probe_vars) (st : state) :
  successful v = true ->
  report domain v st
  = (Ok {| field_names := ["Threat successfully found"];
           rows := map (fun record => [record]) (all_records v) |},
     printed (Line ("Zone transfer successful for domain " +:+ domain)) st).
Proof.
  intros Hs. unfold report. rewrite Hs, bind_run.
  rewrite record_rows_run by reflexivity. reflexivity.
Qed.

Lemma report_failure (domain : string) (v : probe_vars) (st : state) :
  successful v = false ->
  report domain v st
  = (Ok failure_table, printed (Line "Oh no! Unfortunately,") st).
Proof. intros Hs. unfold report. rewrite Hs. reflexivity. Qed.

Lemma report_calls (domain : string) (v : probe_vars) (st : state) :
  exists t st', report domain v st = (Ok t, st') /\ calls st' = calls st.
Proof.
  destruct (successful v) eqn:Hs.
  - rewrite report_success by exact Hs. eauto.
  - rewrite report_failure by exact Hs. eauto.
Qed.

(** A normal run of [main_with], stage by stage. *)
Lemma main_with_Ok (domain : string) (ns_servers : list (option string))
    (st st' : state) :
  main_with w domain ns_servers st = (Ok tt, st') ->
  exists v st1 general_info_table st2 result_table st3,
    probe_servers w domain ns_servers probe_vars0 st = (Ok v, st1)
    /\ asn_rows w ns_servers general_info_table0 st1
       = (Ok general_info_table, st2)
    /\ report domain v st2 = (Ok result_table, st3)
    /\ st' = {| calls := calls st3;
                console := console st3
                           ++ [Table result_table; Line (String LF "DNS INFO:");
                               Table general_info_table] |}.
Proof.
  unfold main_with. rewrite bind_run.
  change {| all_records := []; successful := false |} with probe_vars0.
  destruct (probe_servers w domain ns_servers probe_vars0 st)
    as [[v|e] st1] eqn:E1; [|discriminate].
  rewrite bind_run.
  change (set_field_names PrettyTable_new ["NS Record"; "ASN Description"])
    with general_info_table0.
  destruct (asn_rows w ns_servers general_info_table0 st1)
    as [[general_info_table|e] st2] eqn:E2; [|discriminate].
  rewrite bind_run.
  destruct (report domain v st2) as [[result_table|e] st3] eqn:E3;
    [|discriminate].
  intros [= <-]. cbn [calls console]. rewrite <- !app_assoc.
  exists v, st1, general_info_table, st2, result_table, st3.
  split; [reflexivity|]. split; [exact E2|]. split; [exact E3 | reflexivity].
Qed.

(** The log of any run of [main_with]: the probing, then calls that probe
    nothing. *)
Lemma main_with_calls (domain : string) (ns_servers : list (option string))
    (st : state) :
  exists st1 made,
    (calls st1 = calls st \/ exists server, probed w domain server st st1)
    /\ calls (snd (main_with w domain ns_servers st)) = calls st1 ++ made
    /\ Forall (fun c => is_probe c = false) made.
Proof.
  unfold main_with. rewrite bind_run.
  destruct (probe_servers_shape w domain ns_servers
              {| all_records := []; successful := false |} st)
    as (r & st1 & -> & Hshape).
  exists st1. destruct r as [v|e].
  2:{ exists []. split; [exact Hshape|].
      split; [symmetry; apply app_nil_r | constructor]. }
  rewrite bind_run.
  destruct (asn_rows_calls ns_servers
              (set_field_names PrettyTable_new ["NS Record"; "ASN Description"])
              st1) as (made & Hmade & Hnone).
  exists made. split; [exact Hshape|]. split; [|exact Hnone].
  destruct (asn_rows w ns_servers _ st1) as [[general_info_table|e] st2];
    cbn [snd] in Hmade; [|exact Hmade].
  rewrite bind_run.
  destruct (report_calls domain v st2) as (t & st3 & -> & Hst3).
  cbn [bind print print_table snd calls]. congruence.
Qed.

End Reporting.

(** ** Normal completion

    In a recoverable world every stage after the resolution returns. *)

Section Completion.

Variable w : world.
Hypothesis Hw : recoverable w.

Lemma zone_transfer_returns (s : strategy) (domain server : string) (st : state) :
  exists records st', zone_transfer w s domain server st = (Ok records, st').
Proof.
  destruct Hw as (Hxfr & Hrun & _).
  destruct (failure_marker s) as [marker|] eqn:Hm.
  - destruct (zone_transfer_tool w s marker domain server Hm) as (argv & _ & ->).
    rewrite tool_transfer_run. cbn zeta.
    destruct (answer_run w (calls st) argv) as [p|e] eqn:E.
    + match goal with |- context [if ?b then _ else _] => destruct b end; eauto.
    + rewrite (Hrun _ _ _ E). eauto.
  - destruct s; try discriminate. cbn [zone_transfer].
    rewrite zone_transfer_dnspython_run. cbn zeta.
    destruct (answer_xfr w (calls st) server domain) as [zone|e] eqn:E;
      [eauto|].
    rewrite (Hxfr _ _ _ _ E). eauto.
Qed.

Lemma probe_server_returns (domain : string) (server : option string)
    (v : probe_vars) (st : state) :
  exists r st', probe_server w domain server v st = (Ok r, st').
Proof.
  destruct server as [server|]; [|cbn; eauto].
  unfold probe_server. rewrite bind_run. cbn [print]. rewrite bind_run.
  match goal with |- context [zone_transfer_dnspython w domain server ?st1] =>
    destruct (zone_transfer_returns dnspython domain server st1)
      as (records & st2 & E1) end.
  cbn [zone_transfer] in E1. rewrite E1.
  destruct (conclusive records) eqn:Hconcl.
  { match goal with |- context [after_strategy ?t ?sv ?r ?v ?o ?st] =>
      destruct (after_strategy_break t sv r v o st Hconcl)
        as (v' & st' & -> & _) end.
    eauto. }
  destruct records as [[|x l]|]; try discriminate.
  rewrite after_strategy_empty, bind_run.
  destruct (zone_transfer_returns nslookup domain server st2)
    as (records & st3 & E2).
  cbn [zone_transfer] in E2. rewrite E2.
  pose proof (tool_transfer_conclusive w "nslookup" "transfer failed"
                (nslookup_argv domain server) st2 st3 records E2) as Hn.
  match goal with |- context [after_strategy ?t ?sv ?r ?v ?o ?st] =>
    destruct (after_strategy_break t sv r v o st Hn)
      as (v' & st' & -> & _) end.
  eauto.
Qed.

Lemma probe_servers_returns (domain : string) (ns_servers : list (option string))
    (v : probe_vars) (st : state) :
  exists v' st', probe_servers w domain ns_servers v st = (Ok v', st').
Proof.
  revert v st. induction ns_servers as [|server rest IH]; intros v st.
  - cbn. eauto.
  - cbn [probe_servers]. rewrite bind_run.
    destruct (probe_server_returns domain server v st) as ([[|] v'] & st' & ->).
    + cbn. eauto.
    + apply IH.
Qed.

Lemma fetch_asn_description_returns (ip_address : string) (st : state) :
  exists description st',
    fetch_asn_description w ip_address st = (Ok description, st').
Proof.
  destruct Hw as (_ & _ & Hget & Hjson).
  unfold fetch_asn_description, try_except, bind, get, external, lift, py_get.
  cbn [calls].
  destruct (answer_get w (calls st) _) as [response|e] eqn:E; cbn [handle].
  - destruct (json response) as [data|e] eqn:Ej; cbn [handle].
    + destruct data; try (cbn; eauto; fail).
      destruct (d !! "org"); cbn; eauto.
    + rewrite (Hjson _ _ _ _ E Ej). cbn. eauto.
  - rewrite (Hget _ _ _ E). cbn. eauto.
Qed.

Lemma asn_rows_returns (ns_servers : list (option string)) (t : PrettyTable)
    (st : state) :
  length (field_names t) = 2%nat ->
  exists t' st', asn_rows w ns_servers t st = (Ok t', st').
Proof.
  revert t st. induction ns_servers as [|ns_server rest IH]; intros t st Hlen.
  - cbn. eauto.
  - cbn [asn_rows]. destruct (truthy_server ns_server); [|apply IH, Hlen].
    rewrite bind_run.
    destruct (fetch_asn_description_returns (default "" ns_server) st)
      as (description & st1 & ->).
    rewrite bind_run. unfold add_row at 1. rewrite Hlen. cbn [length Nat.eqb ret].
    apply IH. exact Hlen.
Qed.

Lemma main_with_returns (domain : string) (ns_servers : list (option string))
    (st : state) :
  exists st', main_with w domain ns_servers st = (Ok tt, st').
Proof.
  unfold main_with. rewrite bind_run.
  destruct (probe_servers_returns domain ns_servers
              {| all_records := []; successful := false |} st)
    as (v & st1 & ->).
  rewrite bind_run.
  destruct (asn_rows_returns ns_servers
              (set_field_names PrettyTable_new ["NS Record"; "ASN Description"])
              st1 eq_refl) as (general_info_table & st2 & ->).
  rewrite bind_run.
  destruct (report_calls domain v st2) as (result_table & st3 & -> & _).
  cbn. eauto.
Qed.

End Completion.

(** ** The orchestrator *)

Section Orchestrator.

Variable w : world.

Lemma strategy_call_is_probe (s : strategy) (domain server : string) :
  is_probe (strategy_call s domain server) = true.
Proof. destruct s; reflexivity. Qed.

Lemma not_probe_not_dig_nmap (made : list call) :
  Forall (fun c => is_probe c = false) made ->
  Forall (fun c => runs_dig_or_nmap c = false) made.
Proof.
  induction 1 as [|c made Hc _ IH]; constructor; [|exact IH].
  destruct c; try reflexivity; discriminate.
Qed.

(** A probing call in a log that is some probing calls followed by calls
    that probe nothing lies among the former. *)
Lemma split_at_probe (c : call) (before after probes made : list call) :
  probes ++ made = before ++ c :: after ->
  is_probe c = true ->
  Forall (fun c => is_probe c = false) made ->
  exists rest, probes = before ++ c :: rest /\ after = rest ++ made.
Proof.
  revert before. induction probes as [|p probes IH]; intros before H Hc Hmade.
  - cbn [app] in H. subst made. exfalso.
    induction before as [|b before IHb]; cbn [app] in Hmade;
      inversion Hmade; subst; [congruence | auto].
  - destruct before as [|b before]; cbn [app] in H; injection H as -> H.
    + exists probes. split; [reflexivity | symmetry; exact H].
    + destruct (IH before H Hc Hmade) as (rest & -> & ->).
      exists rest. split; reflexivity.
Qed.

Lemma asn_rows_absent (ns_servers : list (option string)) (t : PrettyTable)
    (st : state) :
  Forall (fun server => server = None) ns_servers ->
  asn_rows w ns_servers t st = (Ok t, st).
Proof.
  induction 1 as [|server rest -> _ IH]; [reflexivity|].
  cbn [asn_rows truthy_server]. exact IH.
Qed.

Lemma resolved_all (ns_servers : list (option string)) :
  Forall (fun server => server <> None) ns_servers ->
  length (resolved ns_servers) = length ns_servers.
Proof.
  induction 1 as [|server rest Hs _ IH]; [reflexivity|].
  destruct server as [ip|]; [|congruence].
  change (resolved (Some ip :: rest)) with (ip :: resolved rest).
  cbn [length]. rewrite IH. reflexivity.
Qed.

(** C1: in any run, a strategy invocation that returns data or None is the
    last probing call of the run: no later strategy runs against that
    server and no later server is probed, whatever the list of addresses
    and whatever the world answers. *)
Theorem first_conclusive_outcome_ends_probing
    (domain : string) (ns_servers : list (option string)) (st : state)
    (before after : list call) (s : strategy) (server : string)
    (st_s st_s' : state) (records : option (list pyval)) :
  calls (snd (main_with w domain ns_servers st))
  = calls st ++ before ++ strategy_call s domain server :: after ->
  calls st_s = calls st ++ before ->
  zone_transfer w s domain server st_s = (Ok records, st_s') ->
  conclusive records = true ->
  Forall (fun c => is_probe c = false) after.
Proof.
  intros Hlog Hs Hrun Hconcl.
  destruct (main_with_calls w domain ns_servers st)
    as (st1 & made & Hshape & Hcalls & Hmade).
  rewrite Hcalls in Hlog.
  pose proof (strategy_call_is_probe s domain server) as Hc.
  destruct Hshape as [H0 | [server0 [H1 | H2 Hempty]]].
  - rewrite H0 in Hlog. apply app_inv_head in Hlog.
    destruct (split_at_probe _ before after [] made Hlog Hc Hmade)
      as (rest & Hrest & _).
    destruct before; discriminate.
  - rewrite H1, <- app_assoc in Hlog. apply app_inv_head in Hlog.
    destruct (split_at_probe _ before after _ made Hlog Hc Hmade)
      as (rest & Hrest & ->).
    destruct before as [|b [|b' before]]; try discriminate.
    injection Hrest as _ <-. exact Hmade.
  - rewrite H2, <- app_assoc in Hlog. apply app_inv_head in Hlog.
    destruct (split_at_probe _ before after _ made Hlog Hc Hmade)
      as (rest & Hrest & ->).
    destruct before as [|b [|b' [|b'' before]]]; try discriminate.
    + exfalso. injection Hrest as Hcall _.
      destruct s; try discriminate. injection Hcall as <-.
      rewrite app_nil_r in Hs. specialize (Hempty st_s Hs).
      rewrite Hrun in Hempty. injection Hempty as ->. discriminate.
    + injection Hrest as _ _ <-. exact Hmade.
Qed.

(** C2: zone_transfer_nslookup returns None or a non-empty list, never the
    empty list; and no run of main starts dig or nmap. *)
Theorem nslookup_conclusive_dig_nmap_unreachable (domain : string) (st : state) :
  (forall server st_n st_n' records,
      zone_transfer_nslookup w domain server st_n = (Ok records, st_n') ->
      records = None \/ exists record rest, records = Some (record :: rest))
  /\ exists made,
       calls (snd (main w domain st)) = calls st ++ made
       /\ Forall (fun c => runs_dig_or_nmap c = false) made.
Proof.
  split.
  - intros server st_n st_n' records H.
    apply (tool_transfer_conclusive w "nslookup" "transfer failed") in H.
    destruct records as [[|record rest]|]; [discriminate | eauto | eauto].
  - unfold main. rewrite bind_run.
    destruct (resolve_servers_calls w domain st) as (resolving & HR & HRn).
    destruct (resolve_servers w domain st) as [[ns_servers|e] st0];
      cbn [snd] in HR.
    2:{ exists resolving. split; [exact HR | apply not_probe_not_dig_nmap, HRn]. }
    destruct (main_with_calls w domain ns_servers st0)
      as (st1 & made & Hshape & Hcalls & Hmade).
    apply not_probe_not_dig_nmap in HRn, Hmade.
    rewrite Hcalls.
    destruct Hshape as [H0 | [server [H1 | H2 _]]].
    + exists (resolving ++ made).
      split; [rewrite H0, HR, <- app_assoc; reflexivity|].
      apply Forall_app. split; assumption.
    + exists (resolving ++ [strategy_call dnspython domain server] ++ made).
      split; [rewrite H1, HR, <- !app_assoc; reflexivity|].
      apply Forall_app. split; [assumption|].
      constructor; [reflexivity | assumption].
    + exists (resolving ++ [strategy_call dnspython domain server;
                            strategy_call nslookup domain server] ++ made).
      split; [rewrite H2, HR, <- !app_assoc; reflexivity|].
      apply Forall_app. split; [assumption|].
      constructor; [reflexivity|]. constructor; [reflexivity | assumption].
Qed.

(** C6: once the name servers are resolved, main runs to its end in every
    recoverable world; and in a run that reaches the tables, the ASN table
    has exactly one row per name server whose address resolved, in order,
    each starting with that address; with every address resolved it has as
    many rows as there are name servers, however the probing went. *)
Theorem asn_table_row_per_resolved_server
    (domain : string) (st st1 st' : state) (ns_servers : list (option string)) :
  resolve_servers w domain st = (Ok ns_servers, st1) ->
  (recoverable w -> exists st', main w domain st = (Ok tt, st'))
  /\ (main w domain st = (Ok tt, st') ->
      exists shown general_info_table,
        console st' = shown ++ [Table general_info_table]
        /\ field_names general_info_table = ["NS Record"; "ASN Description"]
        /\ Forall2 (fun ip row =>
                      exists description, row = [PyStr ip; description])
                   (resolved ns_servers) (rows general_info_table)
        /\ length (rows general_info_table) = length (resolved ns_servers)
        /\ (Forall (fun server => server <> None) ns_servers ->
            length (rows general_info_table) = length ns_servers)).
Proof.
  intros Hres. split.
  { intros Hw. unfold main. rewrite (bind_Ok _ _ _ _ _ Hres).
    apply main_with_returns, Hw. }
  intros Hmain. unfold main in Hmain.
  rewrite (bind_Ok _ _ _ _ _ Hres) in Hmain.
  apply main_with_Ok in Hmain.
  destruct Hmain as (v & st2 & general_info_table & st3 & result_table & st4
                     & _ & Hasn & _ & ->).
  apply asn_rows_Ok in Hasn. destruct Hasn as (Hf & added & Hr & Hall).
  rewrite (resolve_servers_truthy w _ _ _ _ Hres) in Hall.
  cbn [general_info_table0 set_field_names rows PrettyTable_new app] in Hf, Hr.
  subst added.
  exists (console st4 ++ [Table result_table; Line (String LF "DNS INFO:")]),
         general_info_table.
  assert (length (rows general_info_table) = length (resolved ns_servers))
    as Hlen by (symmetry; eapply Forall2_length; exact Hall).
  split; [cbn [console]; rewrite <- app_assoc; reflexivity|].
  split; [exact Hf|]. split; [exact Hall|]. split; [exact Hlen|].
  intros Hsome. rewrite Hlen. apply resolved_all, Hsome.
Qed.

(** C7: when no name server's address resolves, main probes nothing (its
    log holds resolver calls only) and prints the failure table, whose
    single row is fixed. *)
Theorem no_resolved_server_no_probe
    (domain : string) (st st1 : state) (ns_servers : list (option string)) :
  resolve_servers w domain st = (Ok ns_servers, st1) ->
  Forall (fun server => server = None) ns_servers ->
  main w domain st
  = (Ok tt,
     {| calls := calls st1;
        console := console st1
                   ++ [Line "Oh no! Unfortunately,"; Table failure_table;
                       Line (String LF "DNS INFO:");
                       Table general_info_table0] |})
  /\ exists made,
       calls st1 = calls st ++ made
       /\ Forall (fun c => is_probe c = false) made.
Proof.
  intros Hres Habsent. split.
  - unfold main. rewrite (bind_Ok _ _ _ _ _ Hres).
    unfold main_with. rewrite bind_run, probe_servers_absent by exact Habsent.
    rewrite bind_run, asn_rows_absent by exact Habsent.
    rewrite bind_run, report_failure by reflexivity.
    unfold bind, print, print_table, printed. cbn [calls console].
    rewrite <- !app_assoc. reflexivity.
  - destruct (resolve_servers_calls w domain st) as (made & H & Hmade).
    rewrite Hres in H. eauto.
Qed.

(** C8: when the transfer from the first resolved server returns exactly
    the record ("example.com.", "A", "1.2.3.4"), the probing ends with the
    success flag set and that one record; the run reaches the tables in
    every recoverable world; and the result table printed has exactly one
    row, holding that triple. *)
Theorem library_transfer_single_record
    (domain server : string) (skipped rest : list (option string))
    (st : state) (zone : Zone) :
  Forall (fun absent => absent = None) skipped ->
  answer_xfr w (calls st) server domain = Ok zone ->
  zone_records zone = [example_record] ->
  let ns_servers := skipped ++ Some server :: rest in
  let result_table :=
    {| field_names := ["Threat successfully found"];
       rows := [[example_record]] |} in
  (exists st1,
      probe_servers w domain ns_servers probe_vars0 st
      = (Ok {| all_records := [example_record]; successful := true |}, st1))
  /\ (recoverable w ->
      exists st', main_with w domain ns_servers st = (Ok tt, st'))
  /\ (forall st',
         main_with w domain ns_servers st = (Ok tt, st') ->
         exists shown general_info_table,
           console st' = shown ++ [Table result_table;
                                   Line (String LF "DNS INFO:");
                                   Table general_info_table]).
Proof.
  intros Hskip Hxfr Hzone ns_servers result_table.
  assert (exists st1,
             probe_servers w domain ns_servers probe_vars0 st
             = (Ok {| all_records := [example_record]; successful := true |},
                st1)) as [st1 Hprobe].
  { unfold ns_servers. rewrite probe_servers_skip by exact Hskip.
    cbn [probe_servers]. rewrite bind_run. unfold probe_server.
    rewrite bind_run. cbn [print]. rewrite bind_run.
    rewrite zone_transfer_dnspython_run. cbn [calls]. rewrite Hxfr, Hzone.
    cbn. eauto. }
  split; [eauto|].
  split; [intros Hw; apply main_with_returns, Hw|].
  intros st' Hmain. apply main_with_Ok in Hmain.
  destruct Hmain as (v & st2 & general_info_table & st3 & table & st4
                     & Hv & _ & Hreport & ->).
  rewrite Hprobe in Hv. injection Hv as <- _.
  rewrite report_success in Hreport by reflexivity.
  injection Hreport as <- _.
  exists (console st4), general_info_table. reflexivity.
Qed.

(** C10: main does not guard the NS resolution: whatever it raises leaves
    main as it is, with nothing printed and nothing else called. *)
Theorem NS_resolution_error_propagates (domain : string) (st : state) (e : exn) :
  answer_NS w (calls st) domain = Raise e ->
  main w domain st = (Raise e, logged (dns_resolver_resolve domain "NS") st).
Proof.
  intros H. unfold main, resolve_servers, bind, resolve_NS, external.
  rewrite H. reflexivity.
Qed.

End Orchestrator.

(** ** The claims on concrete worlds *)

Lemma open_world_recoverable : recoverable open_world.
Proof.
  unfold recoverable, open_world. cbn.
  repeat split; intros;
    repeat match goal with H : Ok _ = Ok _ |- _ => injection H as <- end;
    discriminate.
Qed.

Lemma refusing_world_recoverable : recoverable refusing_world.
Proof.
  unfold recoverable, refusing_world, open_world. cbn.
  repeat split; intros;
    repeat match goal with H : Ok _ = Ok _ |- _ => injection H as <- end;
    try discriminate;
    match goal with H : Raise _ = Raise _ |- _ => injection H as <- end;
    reflexivity.
Qed.

(** What the [except] clauses leave out: a refused connection is an
    [OSError] the transfer strategy does not name, and an interrupt is no
    [Exception]; both leave the function that meets them. *)
Example connection_refused_propagates :
  forall w : world,
    answer_xfr w [] "192.0.2.1" "example.com"
    = Raise {| exn_cls := ConnectionRefusedError;
               exn_str := "Connection refused" |} ->
    fst (zone_transfer_dnspython w "example.com" "192.0.2.1" st0)
    = Raise {| exn_cls := ConnectionRefusedError;
               exn_str := "Connection refused" |}.
Proof.
  intros w H. rewrite zone_transfer_dnspython_run. cbn [calls st0].
  rewrite H. reflexivity.
Qed.

Example interrupt_propagates :
  forall w : world,
    answer_get w [] "https://ipinfo.io/192.0.2.1/json"
    = Raise {| exn_cls := KeyboardInterrupt; exn_str := "" |} ->
    fst (fetch_asn_description w "192.0.2.1" st0)
    = Raise {| exn_cls := KeyboardInterrupt; exn_str := "" |}.
Proof.
  intros w H.
  unfold fetch_asn_description, try_except, bind, get, external.
  change ("https://ipinfo.io/" +:+ "192.0.2.1" +:+ "/json")
    with "https://ipinfo.io/192.0.2.1/json".
  cbn [calls st0]. rewrite H. reflexivity.
Qed.

Lemma first_conclusive_outcome_ends_probing_witness :
  Forall (fun c => is_probe c = false)
         [requests_get "https://ipinfo.io/192.0.2.1/json";
          requests_get "https://ipinfo.io/192.0.2.2/json"].
Proof.
  apply (first_conclusive_outcome_ends_probing empty_zone_world "example.com"
           [Some "192.0.2.1"; None; Some "192.0.2.2"] st0
           [dns_query_xfr "192.0.2.1" "example.com"] _
           nslookup "192.0.2.1"
           {| calls := [dns_query_xfr "192.0.2.1" "example.com"]; console := [] |}
           {| calls := [dns_query_xfr "192.0.2.1" "example.com";
                        subprocess_run (nslookup_argv "example.com" "192.0.2.1")];
              console := [] |}
           (Some [PyStr "example.com. 3600 IN A 1.2.3.4"]));
    reflexivity.
Defined.

Lemma nslookup_conclusive_dig_nmap_unreachable_witness :
  Some [PyStr "example.com. 3600 IN A 1.2.3.4"] = None
  \/ exists record rest,
       Some [PyStr "example.com. 3600 IN A 1.2.3.4"] = Some (record :: rest).
Proof.
  apply (proj1 (nslookup_conclusive_dig_nmap_unreachable
                  empty_zone_world "example.com" st0)
               "192.0.2.1" st0
               {| calls := [subprocess_run
                              (nslookup_argv "example.com" "192.0.2.1")];
                  console := [] |}).
  reflexivity.
Defined.

Lemma failed_tool_is_definitive_failure_witness :
  exists st',
    zone_transfer failing_tool_world dig "example.com" "192.0.2.1" st0
    = (Ok None, st').
Proof.
  apply (failed_tool_is_definitive_failure failing_tool_world dig
           "example.com" "192.0.2.1" st0
           {| returncode := 9; stdout := "";
              stderr := "; Transfer failed." |}).
  - reflexivity.
  - left. discriminate.
Defined.

Lemma dnspython_converts_transfer_errors_witness :
  zone_transfer_dnspython refusing_world "example.com" "192.0.2.1" st0
  = (Ok None,
     {| calls := [dns_query_xfr "192.0.2.1" "example.com"];
        console := [Line "Error with dnspython: Zone transfer error: REFUSED"] |}).
Proof.
  apply (dnspython_converts_transfer_errors refusing_world
           "example.com" "192.0.2.1" st0
           {| exn_cls := dns_xfr_TransferError;
              exn_str := "Zone transfer error: REFUSED" |});
    reflexivity.
Defined.

Lemma resolve_ns_to_ip_first_or_absent_witness :
  resolve_ns_to_ip open_world "ns1.example.com." st0
  = (Ok (Some "192.0.2.0"),
     {| calls := [dns_resolver_resolve "ns1.example.com." "A"]; console := [] |})
  /\ resolve_ns_to_ip unresolvable_world "ns1.example.com." st0
     = (Ok None,
        {| calls := [dns_resolver_resolve "ns1.example.com." "A"];
           console := [] |}).
Proof.
  split.
  - apply (proj1 (resolve_ns_to_ip_first_or_absent open_world
                    "ns1.example.com." st0) (address 0) []).
    reflexivity.
  - apply (proj2 (resolve_ns_to_ip_first_or_absent unresolvable_world
                    "ns1.example.com." st0)
                 {| exn_cls := dns_resolver_NXDOMAIN;
                    exn_str := "The DNS query name does not exist" |});
      reflexivity.
Defined.

Lemma fetch_asn_description_placeholder_or_org_witness :
  fst (fetch_asn_description refusing_world "192.0.2.1" st0)
  = Ok (PyStr "ASN description not available")
  /\ fst (fetch_asn_description open_world "192.0.2.1" st0)
     = Ok (PyStr "AS64500 Example").
Proof.
  split.
  - apply (proj1 (fetch_asn_description_placeholder_or_org refusing_world
                    "192.0.2.1" st0)
                 {| exn_cls := requests_ConnectionError;
                    exn_str := "Max retries exceeded" |});
      reflexivity.
  - apply (proj2 (proj2 (proj2 (fetch_asn_description_placeholder_or_org
                                  open_world "192.0.2.1" st0)))
                 {| json := Ok (PyDict {[ "org" := PyStr "AS64500 Example" ]}) |}
                 (PyDict {[ "org" := PyStr "AS64500 Example" ]}));
      reflexivity.
Defined.

Lemma asn_table_row_per_resolved_server_witness :
  exists shown general_info_table,
    console (snd (main refusing_world "example.com" st0))
    = shown ++ [Table general_info_table]
    /\ length (rows general_info_table) = 3%nat.
Proof.
  destruct (proj2 (asn_table_row_per_resolved_server refusing_world
                     "example.com" st0
                     (snd (resolve_servers refusing_world "example.com" st0))
                     (snd (main refusing_world "example.com" st0))
                     [Some "192.0.2.1"; Some "192.0.2.2"; Some "192.0.2.3"]
                     eq_refl) eq_refl)
    as (shown & general_info_table & Hshown & _ & _ & Hlen & _).
  exists shown, general_info_table. split; [exact Hshown | exact Hlen].
Defined.

Lemma no_resolved_server_no_probe_witness :
  console (snd (main unresolvable_world "example.com" st0))
  = [Line "Oh no! Unfortunately,"; Table failure_table;
     Line (String LF "DNS INFO:"); Table general_info_table0].
Proof.
  assert (Forall (fun server : option string => server = None)
                 [None; None; None]) as Habsent by (repeat constructor).
  rewrite (proj1 (no_resolved_server_no_probe unresolvable_world "example.com"
                    st0 (snd (resolve_servers unresolvable_world "example.com" st0))
                    [None; None; None] eq_refl Habsent)).
  reflexivity.
Defined.

Lemma library_transfer_single_record_witness :
  exists st1,
    probe_servers open_world "example.com"
      [None; Some "192.0.2.1"; Some "192.0.2.2"] probe_vars0 st0
    = (Ok {| all_records := [example_record]; successful := true |}, st1).
Proof.
  assert (Forall (fun absent : option string => absent = None) [None])
    as Habsent by (repeat constructor).
  apply (proj1 (library_transfer_single_record open_world "example.com"
                  "192.0.2.1" [None] [Some "192.0.2.2"] st0 example_zone
                  Habsent eq_refl eq_refl)).
Defined.

Lemma NS_resolution_error_propagates_witness :
  main no_NS_world "example.com" st0
  = (Raise {| exn_cls := dns_resolver_NoNameservers;
              exn_str := "All nameservers failed to answer the query" |},
     {| calls := [dns_resolver_resolve "example.com" "NS"]; console := [] |}).
Proof.
  apply (NS_resolution_error_propagates no_NS_world "example.com" st0).
  reflexivity.
Defined.

(** * Further properties of the script *)

(** ** The functions one by one *)

Section Functions.

Variable w : world.

(** X1: fetch_ns_records returns the targets of the NS answer; when the
    lookup raises anything that derives from Exception it prints the error
    and returns the empty list, raising nothing. *)
Theorem fetch_ns_records_targets_or_empty (domain : string) (st : state) :
  (forall names,
      answer_NS w (calls st) domain = Ok names ->
      fetch_ns_records w domain st
      = (Ok names, logged (dns_resolver_resolve domain "NS") st))
  /\ (forall e,
         answer_NS w (calls st) domain = Raise e ->
         isinstance e [Exception] = true ->
         fetch_ns_records w domain st
         = (Ok [],
            printed (Line ("Error fetching NS records: " +:+ exn_str e))
                    (logged (dns_resolver_resolve domain "NS") st))).
Proof.
  split.
  - intros names H.
    unfold fetch_ns_records, try_except, resolve_NS, external.
    rewrite H. reflexivity.
  - intros e H Hcls.
    unfold fetch_ns_records, try_except, resolve_NS, external.
    rewrite H. cbn [handle]. rewrite Hcls. reflexivity.
Qed.

(** X2: when starting the external tool raises anything that derives from
    Exception (the tool is not installed, say), the tool strategy prints
    "Error with <tool>: <error>" and returns None. *)
Theorem tool_exception_is_definitive_failure
    (s : strategy) (domain server : string) (st : state) (e : exn) :
  tool_result w s domain server st = Some (Raise e) ->
  isinstance e [Exception] = true ->
  zone_transfer w s domain server st
  = (Ok None,
     printed (Line ("Error with " +:+ tool_name s +:+ ": " +:+ exn_str e))
             (logged (strategy_call s domain server) st)).
Proof.
  intros Hrun Hcls.
  assert (exists marker, failure_marker s = Some marker) as [marker Hm]
    by (destruct s; cbn in *; [discriminate | eauto ..]).
  destruct (zone_transfer_tool w s marker domain server Hm) as (argv & Hc & ->).
  unfold tool_result in Hrun. rewrite Hc in Hrun |- *. injection Hrun as Hrun.
  rewrite tool_transfer_run, Hrun. cbn zeta. rewrite Hcls. reflexivity.
Qed.

(** X3: when the tool exits with code 0 and its error stream lacks the
    marker, the tool strategy returns the lines of its output, one string
    per line and at least one; except that with no output at all it returns
    None, as on a failure, and prints nothing. *)
Theorem tool_output_lines_or_None
    (s : strategy) (marker domain server : string) (st : state)
    (p : CompletedProcess) :
  failure_marker s = Some marker ->
  tool_result w s domain server st = Some (Ok p) ->
  returncode p = 0%Z ->
  str_in marker (stderr p) = false ->
  (stdout p = "" ->
   zone_transfer w s domain server st
   = (Ok None, logged (strategy_call s domain server) st))
  /\ (stdout p <> "" ->
      splitlines (stdout p) <> []
      /\ zone_transfer w s domain server st
         = (Ok (Some (map PyStr (splitlines (stdout p)))),
            logged (strategy_call s domain server) st)).
Proof.
  intros Hm Hrun Hrc Herr.
  destruct (zone_transfer_tool w s marker domain server Hm) as (argv & Hc & ->).
  unfold tool_result in Hrun. rewrite Hc in Hrun |- *. injection Hrun as Hrun.
  rewrite tool_transfer_run, Hrun. cbn zeta. rewrite Herr, Hrc. cbn [orb negb Z.eqb].
  split.
  - intros ->. reflexivity.
  - intros Hout.
    assert (splitlines (stdout p) <> []) as Hlines
      by (intros H; apply splitlines_nil in H; contradiction).
    split; [exact Hlines|].
    destruct (splitlines (stdout p)); [contradiction | reflexivity].
Qed.

Lemma node_records_length (name : string) (sets : list Rdataset) :
  length (flat_map (fun rdataset =>
            map (fun rdata =>
                   PyTuple [PyStr name; PyStr (rdtype_text rdataset); PyStr rdata])
                (rdata_texts rdataset)) sets)
  = list_sum (map (fun rdataset => length (rdata_texts rdataset)) sets).
Proof.
  induction sets as [|rdataset others IH]; [reflexivity|].
  cbn [flat_map map list_sum]. rewrite length_app, length_map, IH.
  reflexivity.
Qed.

Lemma zone_records_length (zone : Zone) :
  length (zone_records zone) = rdata_count zone.
Proof.
  unfold zone_records, rdata_count.
  induction zone as [|[name node] zone IH]; [reflexivity|].
  cbn [flat_map map list_sum]. rewrite length_app, node_records_length, IH.
  reflexivity.
Qed.

Lemma zone_records_triples (zone : Zone) :
  Forall (fun record => is_triple record = true) (zone_records zone).
Proof.
  unfold zone_records.
  induction zone as [|[name node] zone IH]; [constructor|].
  cbn [flat_map]. apply Forall_app. split; [|exact IH].
  induction (rdatasets node) as [|rdataset others IHn]; [constructor|].
  cbn [flat_map]. apply Forall_app. split; [|exact IHn].
  induction (rdata_texts rdataset) as [|rdata texts IHr]; constructor;
    [reflexivity | exact IHr].
Qed.

(** X4: a transfer that completes is never turned into None: the
    library-native strategy returns a list with one (name, type, data)
    triple of strings per rdata of the zone, the empty list for a zone
    without rdata, and prints nothing. *)
Theorem dnspython_returns_one_triple_per_rdata
    (domain server : string) (st : state) (zone : Zone) :
  answer_xfr w (calls st) server domain = Ok zone ->
  exists records,
    zone_transfer_dnspython w domain server st
    = (Ok (Some records), logged (dns_query_xfr server domain) st)
    /\ length records = rdata_count zone
    /\ Forall (fun record => is_triple record = true) records.
Proof.
  intros H. exists (zone_records zone).
  rewrite zone_transfer_dnspython_run, H. cbn zeta.
  split; [reflexivity|].
  split; [apply zone_records_length | apply zone_records_triples].
Qed.

End Functions.

(** ** Whole runs *)

Section Runs.

Variable w : world.

(** The log the loop body leaves for a resolved server. *)
Lemma probe_server_log (domain server : string) (v : probe_vars) (st : state) :
  calls (snd (probe_server w domain (Some server) v st))
  = calls st ++ probes_of w domain server st.
Proof.
  unfold probe_server, probes_of. rewrite bind_run. cbn [print].
  set (st1 := {| calls := calls st; console := _ |}).
  rewrite bind_run.
  pose proof (zone_transfer_calls w dnspython domain server st1) as Hc1.
  rewrite (zone_transfer_outcome_log w dnspython domain server st st1 eq_refl).
  cbn [zone_transfer] in Hc1 |- *.
  destruct (zone_transfer_dnspython w domain server st1) as [r1 st2].
  cbn [snd fst] in Hc1 |- *. change (calls st1) with (calls st) in Hc1.
  destruct r1 as [records|e]; [|exact Hc1].
  destruct (conclusive records) eqn:Hconcl.
  { match goal with |- context [after_strategy ?t ?sv ?r ?v ?o ?st] =>
      destruct (after_strategy_break t sv r v o st Hconcl)
        as (v' & st' & -> & Hst') end.
    cbn [snd]. rewrite Hst', Hc1.
    destruct records as [[|x l]|]; [discriminate | reflexivity | reflexivity]. }
  destruct records as [[|x l]|]; try discriminate.
  rewrite after_strategy_empty, bind_run. cbn [returned_empty].
  pose proof (zone_transfer_calls w nslookup domain server st2) as Hc2.
  pose proof (tool_transfer_conclusive w "nslookup" "transfer failed"
                (nslookup_argv domain server) st2) as Hn.
  change (tool_transfer w "nslookup" "transfer failed"
            (nslookup_argv domain server))
    with (zone_transfer_nslookup w domain server) in Hn.
  cbn [zone_transfer] in Hc2.
  destruct (zone_transfer_nslookup w domain server st2) as [r2 st3].
  cbn [snd] in Hc2.
  assert (calls st3
          = calls st ++ [strategy_call dnspython domain server;
                         strategy_call nslookup domain server]) as Hc3
    by (rewrite Hc2, Hc1, <- app_assoc; reflexivity).
  destruct r2 as [records|e]; [|exact Hc3].
  match goal with |- context [after_strategy ?t ?sv ?r ?v ?o ?st] =>
    destruct (after_strategy_break t sv r v o st (Hn _ _ eq_refl))
      as (v' & st' & -> & Hst') end.
  cbn [snd]. rewrite Hst'. exact Hc3.
Qed.

(** The loop on a list whose first resolved address is [server]. *)
Lemma probe_servers_first (domain server : string)
    (skipped rest : list (option string)) (v : probe_vars) (st : state) :
  Forall (fun absent => absent = None) skipped ->
  probe_servers w domain (skipped ++ Some server :: rest) v st
  = probe_servers w domain [Some server] v st
  /\ calls (snd (probe_servers w domain (skipped ++ Some server :: rest) v st))
     = calls st ++ probes_of w domain server st.
Proof.
  intros Hskip. rewrite probe_servers_skip by exact Hskip.
  cbn [probe_servers]. rewrite !bind_run.
  pose proof (probe_server_log domain server v st) as Hlog.
  destruct (probe_server_Some w domain server v st) as (r & st' & E & _ & NN).
  rewrite E in Hlog |- *. cbn [snd] in Hlog.
  destruct r as [[[|] v']|e]; [| exfalso; eapply NN; reflexivity |];
    (split; [reflexivity | exact Hlog]).
Qed.

(** The log of a run whose first resolved address is [server]. *)
Lemma main_with_log (domain server : string)
    (skipped rest : list (option string)) (st : state) :
  Forall (fun absent => absent = None) skipped ->
  exists made,
    calls (snd (main_with w domain (skipped ++ Some server :: rest) st))
    = calls st ++ probes_of w domain server st ++ made
    /\ Forall (fun c => is_probe c = false) made.
Proof.
  intros Hskip. unfold main_with. rewrite bind_run.
  destruct (probe_servers_first domain server skipped rest
              {| all_records := []; successful := false |} st Hskip)
    as [_ Hlog].
  destruct (probe_servers w domain (skipped ++ Some server :: rest)
              {| all_records := []; successful := false |} st) as [[v|e] st1];
    cbn [snd] in Hlog.
  2:{ exists []. rewrite app_nil_r. split; [exact Hlog | constructor]. }
  rewrite bind_run.
  destruct (asn_rows_calls w (skipped ++ Some server :: rest)
              (set_field_names PrettyTable_new ["NS Record"; "ASN Description"])
              st1) as (made & Hmade & Hnone).
  exists made. split; [|exact Hnone].
  rewrite Hlog, <- app_assoc in Hmade.
  destruct (asn_rows w (skipped ++ Some server :: rest) _ st1)
    as [[general_info_table|e] st2]; cbn [snd] in Hmade; [|exact Hmade].
  rewrite bind_run.
  destruct (report_calls domain v st2) as (t & st3 & -> & Hst3).
  cbn [bind print print_table snd calls]. congruence.
Qed.

(** X5: a transfer error outside the [except] clauses of the library-native
    strategy (a refused connection, say) ends the whole run: main leaves
    with that error right after its "Checking NS server" line, no fallback
    tool is tried and no table is printed. *)
Theorem uncaught_transfer_error_aborts_run
    (domain server : string) (skipped rest : list (option string))
    (st : state) (e : exn) :
  Forall (fun absent => absent = None) skipped ->
  answer_xfr w (calls st) server domain = Raise e ->
  isinstance e caught_by_dnspython = false ->
  main_with w domain (skipped ++ Some server :: rest) st
  = (Raise e,
     {| calls := calls st ++ [dns_query_xfr server domain];
        console := console st ++ [Line ("Checking NS server: " +:+ server)] |}).
Proof.
  intros Hskip Hxfr Hcls. unfold main_with.
  rewrite bind_run, probe_servers_skip by exact Hskip.
  cbn [probe_servers]. rewrite bind_run. unfold probe_server.
  rewrite bind_run. cbn [print]. rewrite bind_run.
  rewrite zone_transfer_dnspython_run. cbn [calls]. rewrite Hxfr. cbn zeta.
  rewrite Hcls. reflexivity.
Qed.

Lemma mapM_raise_at {A B} (f : A -> M B) (xs rest : list A) (x : A)
    (ys : list B) (st st1 st2 : state) (e : exn) :
  mapM f xs st = (Ok ys, st1) ->
  f x st1 = (Raise e, st2) ->
  mapM f (xs ++ x :: rest) st = (Raise e, st2).
Proof.
  revert ys st. induction xs as [|a xs IH]; intros ys st Hxs Hx.
  - injection Hxs as _ <-. cbn [app mapM]. rewrite bind_run, Hx. reflexivity.
  - cbn [app mapM] in Hxs |- *. rewrite bind_run in Hxs |- *.
    destruct (f a st) as [[b|e'] st'] eqn:E; [|discriminate].
    rewrite bind_run in Hxs |- *.
    destruct (mapM f xs st') as [[ys'|e'] st''] eqn:E'; [|discriminate].
    injection Hxs as _ <-.
    rewrite (IH ys' st' E' Hx). reflexivity.
Qed.

(** Address lookups that return print nothing. *)
Lemma mapM_resolve_console (names : list string) (st st' : state)
    (ns_servers : list (option string)) :
  mapM (resolve_ns_to_ip w) names st = (Ok ns_servers, st') ->
  console st' = console st.
Proof.
  revert st ns_servers. induction names as [|name names IH]; intros st ns_servers.
  - intros [= _ <-]. reflexivity.
  - cbn [mapM]. rewrite bind_run.
    destruct (resolve_ns_to_ip w name st) as [[server|e] st1] eqn:E;
      [|discriminate].
    rewrite bind_run.
    destruct (mapM (resolve_ns_to_ip w) names st1) as [[servers|e] st2] eqn:E';
      [|discriminate].
    intros [= _ <-]. rewrite (IH _ _ E').
    revert E. unfold resolve_ns_to_ip, try_except, bind, resolve_A, external.
    destruct (answer_A w (calls st) name) as [[|first others]|e];
      cbn [handle raise ret];
      try match goal with |- context [isinstance ?x ?cs] =>
            destruct (isinstance x cs) end;
      intros [= _ <-]; reflexivity.
Qed.

(** X6: resolve_ns_to_ip guards three errors only.  When the address lookup
    of any name server raises another one, main leaves with it at that
    lookup: the later name servers are not looked up, nothing is probed
    and nothing is printed. *)
Theorem unexpected_lookup_error_aborts_main
    (domain ns_name : string) (looked_up later : list string)
    (ns_servers : list (option string)) (st st1 : state) (e : exn) :
  answer_NS w (calls st) domain = Ok (looked_up ++ ns_name :: later) ->
  mapM (resolve_ns_to_ip w) looked_up
       (logged (dns_resolver_resolve domain "NS") st)
  = (Ok ns_servers, st1) ->
  answer_A w (calls st1) ns_name = Raise e ->
  isinstance e [dns_resolver_NoAnswer; dns_resolver_NXDOMAIN;
                dns_exception_Timeout] = false ->
  main w domain st
  = (Raise e, logged (dns_resolver_resolve ns_name "A") st1)
  /\ console st1 = console st
  /\ exists made,
       calls st1 = calls st ++ made
       /\ Forall (fun c => is_probe c = false) made.
Proof.
  intros HNS Hbefore HA Hcls.
  assert (resolve_ns_to_ip w ns_name st1
          = (Raise e, logged (dns_resolver_resolve ns_name "A") st1)) as Hone.
  { unfold resolve_ns_to_ip, try_except, bind, resolve_A, external.
    rewrite HA. cbn [handle]. rewrite Hcls. reflexivity. }
  split; [|split].
  - unfold main. rewrite bind_run. unfold resolve_servers.
    rewrite bind_run. unfold resolve_NS at 1, external. rewrite HNS.
    change {| calls := calls st ++ [dns_resolver_resolve domain "NS"];
              console := console st |}
      with (logged (dns_resolver_resolve domain "NS") st).
    rewrite (mapM_raise_at _ _ later _ _ _ _ _ _ Hbefore Hone). reflexivity.
  - rewrite (mapM_resolve_console _ _ _ _ Hbefore). reflexivity.
  - destruct (mapM_resolve_calls w looked_up
                (logged (dns_resolver_resolve domain "NS") st))
      as (made & H & Hmade).
    rewrite Hbefore in H. cbn [snd logged calls] in H.
    exists (dns_resolver_resolve domain "NS" :: made).
    split; [rewrite H, <- app_assoc; reflexivity
           | constructor; [reflexivity | exact Hmade]].
Qed.

(** X7: only the first name server whose address resolved is ever probed,
    and only by the library-native transfer and nslookup: the servers
    listed after it change nothing in the probing, and every probing call
    of a run is one of these two calls against that server. *)
Theorem only_first_resolved_server_is_probed
    (domain server : string) (skipped rest : list (option string))
    (st : state) :
  Forall (fun absent => absent = None) skipped ->
  (forall v,
      probe_servers w domain (skipped ++ Some server :: rest) v st
      = probe_servers w domain [Some server] v st)
  /\ exists made,
       calls (snd (main_with w domain (skipped ++ Some server :: rest) st))
       = calls st ++ made
       /\ Forall (fun c => is_probe c = true ->
                           c = strategy_call dnspython domain server
                           \/ c = strategy_call nslookup domain server) made.
Proof.
  intros Hskip. split.
  - intros v. apply probe_servers_first, Hskip.
  - destruct (main_with_log domain server skipped rest st Hskip)
      as (made & Hlog & Hmade).
    exists (probes_of w domain server st ++ made). split; [exact Hlog|].
    apply Forall_app. split.
    + unfold probes_of.
      destruct (returned_empty _).
      * constructor; [intros _; left; reflexivity|].
        constructor; [intros _; right; reflexivity | constructor].
      * constructor; [intros _; left; reflexivity | constructor].
    + clear Hlog. induction Hmade as [|c made Hc _ IH]; constructor;
        [congruence | exact IH].
Qed.





Lemma asn_rows_log (ns_servers : list (option string)) (t t' : PrettyTable)
    (st st' : state) :
  asn_rows w ns_servers t st = (Ok t', st') ->
  calls st'
  = calls st ++ map (fun ip => requests_get (asn_url ip))
                    (shown_servers ns_servers).
Proof.
  revert t st. induction ns_servers as [|ns_server rest IH]; intros t st.
  - intros [= _ <-]. symmetry. apply app_nil_r.
  - cbn [asn_rows].
    change (shown_servers (ns_server :: rest))
      with (match (if truthy_server ns_server then ns_server else None) with
            | Some ip => ip :: shown_servers rest
            | None => shown_servers rest
            end).
    destruct (truthy_server ns_server) eqn:Htrue; [|apply IH].
    destruct ns_server as [ip|]; [|discriminate].
    change (default "" (Some ip)) with ip.
    rewrite bind_run.
    pose proof (fetch_asn_description_calls w ip st) as H1.
    destruct (fetch_asn_description w ip st) as [[description|e] st1];
      [|discriminate].
    cbn [snd] in H1. rewrite bind_run.
    pose proof (add_row_state t [PyStr ip; description] st1) as H2.
    destruct (add_row t [PyStr ip; description] st1) as [[t1|e] st2];
      [|discriminate].
    cbn [snd] in H2. subst st2.
    intros H. apply IH in H. rewrite H, H1, <- app_assoc. reflexivity.
Qed.

(** X10: a run that reaches the tables asks the ASN service exactly once
    per name server whose address resolved, in the order of the NS answer
    and after all probing; an address that occurs twice is asked about
    twice. *)
Theorem asn_service_asked_once_per_resolved_server
    (domain : string) (st st1 st' : state) (ns_servers : list (option string)) :
  resolve_servers w domain st = (Ok ns_servers, st1) ->
  main w domain st = (Ok tt, st') ->
  exists probes,
    calls st'
    = calls st1 ++ probes
      ++ map (fun ip => requests_get (asn_url ip)) (resolved ns_servers)
    /\ Forall (fun c => is_probe c = true) probes.
Proof.
  intros Hres Hmain. unfold main in Hmain.
  rewrite (bind_Ok _ _ _ _ _ Hres) in Hmain.
  apply main_with_Ok in Hmain.
  destruct Hmain as (v & st2 & general_info_table & st3 & result_table & st4
                     & Hprobe & Hasn & Hreport & ->).
  apply asn_rows_log in Hasn.
  rewrite (resolve_servers_truthy w _ _ _ _ Hres) in Hasn.
  destruct (report_calls domain v st3) as (t & st5 & Hr & Hst5).
  rewrite Hreport in Hr. injection Hr as _ <-.
  cbn [calls]. rewrite Hst5, Hasn.
  destruct (probe_servers_shape w domain ns_servers probe_vars0 st1)
    as (r & st6 & Hp & Hshape).
  rewrite Hprobe in Hp. injection Hp as _ <-.
  destruct Hshape as [H0 | [server [H1 | H2 _]]].
  - exists []. split; [rewrite H0; reflexivity | constructor].
  - exists [strategy_call dnspython domain server].
    split; [rewrite H1, <- app_assoc; reflexivity | repeat constructor].
  - exists [strategy_call dnspython domain server;
            strategy_call nslookup domain server].
    split; [rewrite H2, <- app_assoc; reflexivity | repeat constructor].
Qed.

(** X11: the fallback that works.  When the transfer from the first
    resolved server returns no record and nslookup then exits with code 0,
    without its marker and with some output, the run is a success whose
    records are the lines of that output: the result table printed has one
    row per line. *)
Theorem nslookup_fallback_shows_output_lines
    (domain server : string) (skipped rest : list (option string))
    (st : state) (zone : Zone) (p : CompletedProcess) :
  Forall (fun absent => absent = None) skipped ->
  answer_xfr w (calls st) server domain = Ok zone ->
  zone_records zone = [] ->
  answer_run w (calls st ++ [dns_query_xfr server domain])
             (nslookup_argv domain server) = Ok p ->
  returncode p = 0%Z ->
  str_in "transfer failed" (stderr p) = false ->
  stdout p <> "" ->
  let ns_servers := skipped ++ Some server :: rest in
  let lines := splitlines (stdout p) in
  (exists st1,
      probe_servers w domain ns_servers probe_vars0 st
      = (Ok {| all_records := map PyStr lines; successful := true |}, st1))
  /\ (forall st',
         main_with w domain ns_servers st = (Ok tt, st') ->
         exists shown general_info_table,
           console st'
           = shown ++ [Table {| field_names := ["Threat successfully found"];
                                rows := map (fun line => [PyStr line]) lines |};
                       Line (String LF "DNS INFO:");
                       Table general_info_table]).
Proof.
  intros Hskip Hxfr Hzone Hrun Hrc Herr Hout ns_servers lines.
  assert (lines <> []) as Hlines
    by (intros H; apply splitlines_nil in H; contradiction).
  assert (exists st1,
             probe_servers w domain ns_servers probe_vars0 st
             = (Ok {| all_records := map PyStr lines; successful := true |},
                st1)) as [st1 Hprobe].
  { unfold ns_servers. rewrite probe_servers_skip by exact Hskip.
    cbn [probe_servers]. rewrite bind_run. unfold probe_server.
    rewrite bind_run. cbn [print]. rewrite bind_run.
    rewrite zone_transfer_dnspython_run. cbn [calls]. rewrite Hxfr, Hzone.
    cbn zeta. rewrite after_strategy_empty, bind_run.
    change (zone_transfer_nslookup w domain server)
      with (tool_transfer w "nslookup" "transfer failed"
              (nslookup_argv domain server)).
    rewrite tool_transfer_run. cbn [logged calls]. rewrite Hrun. cbn zeta.
    rewrite Herr, Hrc. cbn [orb negb Z.eqb]. fold lines.
    destruct lines as [|line others]; [contradiction|].
    cbn. eauto. }
  split; [eauto|].
  intros st' Hmain. apply main_with_Ok in Hmain.
  destruct Hmain as (v & st2 & general_info_table & st3 & table & st4
                     & Hv & _ & Hreport & ->).
  rewrite Hprobe in Hv. injection Hv as <- _.
  rewrite report_success in Hreport by reflexivity.
  injection Hreport as <- _.
  exists (console st4), general_info_table.
  cbn [all_records]. rewrite map_map. reflexivity.
Qed.

End Runs.

(** ** The further properties on concrete worlds *)

Lemma fetch_ns_records_targets_or_empty_witness :
  fetch_ns_records no_NS_world "example.com" st0
  = (Ok [],
     {| calls := [dns_resolver_resolve "example.com" "NS"];
        console := [Line "Error fetching NS records: All nameservers failed to answer the query"] |}).
Proof.
  apply (proj2 (fetch_ns_records_targets_or_empty no_NS_world "example.com" st0)
               {| exn_cls := dns_resolver_NoNameservers;
                  exn_str := "All nameservers failed to answer the query" |});
    reflexivity.
Defined.

Lemma tool_exception_is_definitive_failure_witness :
  zone_transfer no_tools_world nmap "example.com" "192.0.2.1" st0
  = (Ok None,
     {| calls := [subprocess_run (nmap_argv "example.com" "192.0.2.1")];
        console := [Line "Error with nmap: [Errno 2] No such file or directory"] |}).
Proof.
  apply (tool_exception_is_definitive_failure no_tools_world nmap
           "example.com" "192.0.2.1" st0
           {| exn_cls := FileNotFoundError;
              exn_str := "[Errno 2] No such file or directory" |});
    reflexivity.
Defined.

Lemma tool_output_lines_or_None_witness :
  zone_transfer empty_zone_world dig "example.com" "192.0.2.1" st0
  = (Ok (Some [PyStr "example.com. 3600 IN A 1.2.3.4"]),
     {| calls := [subprocess_run (dig_argv "example.com" "192.0.2.1")];
        console := [] |})
  /\ zone_transfer open_world dig "example.com" "192.0.2.1" st0
     = (Ok None,
        {| calls := [subprocess_run (dig_argv "example.com" "192.0.2.1")];
           console := [] |}).
Proof.
  split.
  - apply (proj2 (tool_output_lines_or_None empty_zone_world dig
                    "Transfer failed" "example.com" "192.0.2.1" st0
                    {| returncode := 0;
                       stdout := "example.com. 3600 IN A 1.2.3.4"
                                 +:+ String LF "";
                       stderr := "" |}
                    eq_refl eq_refl eq_refl eq_refl)).
    discriminate.
  - apply (proj1 (tool_output_lines_or_None open_world dig
                    "Transfer failed" "example.com" "192.0.2.1" st0
                    {| returncode := 0; stdout := ""; stderr := "" |}
                    eq_refl eq_refl eq_refl eq_refl)).
    reflexivity.
Defined.

Lemma dnspython_returns_one_triple_per_rdata_witness :
  exists records,
    zone_transfer_dnspython open_world "example.com" "192.0.2.1" st0
    = (Ok (Some records),
       {| calls := [dns_query_xfr "192.0.2.1" "example.com"]; console := [] |})
    /\ length records = 1%nat
    /\ Forall (fun record => is_triple record = true) records.
Proof.
  apply (dnspython_returns_one_triple_per_rdata open_world
           "example.com" "192.0.2.1" st0 example_zone).
  reflexivity.
Defined.

Lemma uncaught_transfer_error_aborts_run_witness :
  main_with closed_port_world "example.com"
    [None; Some "192.0.2.1"; Some "192.0.2.2"] st0
  = (Raise {| exn_cls := ConnectionRefusedError;
              exn_str := "[Errno 111] Connection refused" |},
     {| calls := [dns_query_xfr "192.0.2.1" "example.com"];
        console := [Line "Checking NS server: 192.0.2.1"] |}).
Proof.
  assert (Forall (fun absent : option string => absent = None) [None])
    as Habsent by (repeat constructor).
  apply (uncaught_transfer_error_aborts_run closed_port_world "example.com"
           "192.0.2.1" [None] [Some "192.0.2.2"] st0 _ Habsent);
    reflexivity.
Defined.

Lemma unexpected_lookup_error_aborts_main_witness :
  main lame_world "example.com" st0
  = (Raise {| exn_cls := dns_resolver_NoNameservers;
              exn_str := "All nameservers failed to answer the query" |},
     {| calls := [dns_resolver_resolve "example.com" "NS";
                  dns_resolver_resolve "ns1.example.com." "A";
                  dns_resolver_resolve "ns2.example.com." "A"];
        console := [] |}).
Proof.
  apply (proj1 (unexpected_lookup_error_aborts_main lame_world "example.com"
                  "ns2.example.com." ["ns1.example.com."] ["ns3.example.com."]
                  [Some "192.0.2.1"]
                  st0
                  {| calls := [dns_resolver_resolve "example.com" "NS";
                               dns_resolver_resolve "ns1.example.com." "A"];
                     console := [] |}
                  {| exn_cls := dns_resolver_NoNameservers;
                     exn_str := "All nameservers failed to answer the query" |}
                  eq_refl eq_refl eq_refl eq_refl)).
Defined.

Lemma only_first_resolved_server_is_probed_witness :
  probe_servers empty_zone_world "example.com"
    [None; Some "192.0.2.1"; Some "192.0.2.2"] probe_vars0 st0
  = probe_servers empty_zone_world "example.com"
      [Some "192.0.2.1"] probe_vars0 st0.
Proof.
  assert (Forall (fun absent : option string => absent = None) [None])
    as Habsent by (repeat constructor).
  apply (proj1 (only_first_resolved_server_is_probed empty_zone_world
                  "example.com" "192.0.2.1" [None] [Some "192.0.2.2"] st0
                  Habsent)).
Defined.



Lemma asn_service_asked_once_per_resolved_server_witness :
  exists probes,
    calls (snd (main open_world "example.com" st0))
    = calls (snd (resolve_servers open_world "example.com" st0)) ++ probes
      ++ [requests_get "https://ipinfo.io/192.0.2.1/json";
          requests_get "https://ipinfo.io/192.0.2.2/json";
          requests_get "https://ipinfo.io/192.0.2.3/json"]
    /\ Forall (fun c => is_probe c = true) probes.
Proof.
  apply (asn_service_asked_once_per_resolved_server open_world "example.com"
           st0 (snd (resolve_servers open_world "example.com" st0))
           (snd (main open_world "example.com" st0))
           [Some "192.0.2.1"; Some "192.0.2.2"; Some "192.0.2.3"]);
    reflexivity.
Defined.

Lemma nslookup_fallback_shows_output_lines_witness :
  exists st1,
    probe_servers empty_zone_world "example.com"
      [None; Some "192.0.2.1"; Some "192.0.2.2"] probe_vars0 st0
    = (Ok {| all_records := [PyStr "example.com. 3600 IN A 1.2.3.4"];
             successful := true |}, st1).
Proof.
  assert (Forall (fun absent : option string => absent = None) [None])
    as Habsent by (repeat constructor).
  apply (proj1 (nslookup_fallback_shows_output_lines empty_zone_world
                  "example.com" "192.0.2.1" [None] [Some "192.0.2.2"] st0 []
                  {| returncode := 0;
                     stdout := "example.com. 3600 IN A 1.2.3.4"
                               +:+ String LF "";
                     stderr := "" |}
                  Habsent eq_refl eq_refl eq_refl eq_refl eq_refl
                  ltac:(discriminate))).
Defined.
